(** * AIONYX: the dataset profiling and statistical intelligence engine

    A shallow embedding of
      - [app/services/statistical_engine.py]
      - [app/services/profiler.py]
      - [app/schemas/profile.py]
      - [app/services/ai_analyst.py] ([calculate_data_confidence])
    together with the pandas / NumPy operations these files call.

    Numbers.  A binary64 value is either NaN or a rational number; the
    arithmetic on rationals is exact, so rounding error, overflow and the
    infinities are outside the model.  Comparing a binary64 value with a
    decimal literal of the source ([0.7], [0.1], [5.0], ...) gives the
    same answer as comparing the rational with the decimal, because no
    binary64 value lies strictly between a decimal and the binary64
    nearest to it.  The square root is a parameter of the development
    ([fsqrt]); so are the formatting of a float inside an f-string
    ([fmt]) and the deep memory estimate of a frame.

    Exceptions.  Code that can raise lives in the monad [res].  A zero
    divisor raises in the model for Python and NumPy operands alike
    (NumPy would warn and produce an infinity, which is not a value
    here), so a result [Ok] also says that no division by zero was
    attempted. *)

From Stdlib Require Import ZArith QArith Qround Qabs Lqa String Ascii List Bool Lia Sorted.
From stdpp Require Import base option list gmap strings pretty sorting.
Import ListNotations.

#[local] Open Scope Z_scope.
#[local] Open Scope Q_scope.
#[local] Open Scope string_scope.
#[local] Open Scope list_scope.

(** ** Exceptions *)

Inductive exn : Type :=
| ZeroDivisionError
| KeyError (key : string)
| TypeError
| AttributeError.

Inductive res (A : Type) : Type :=
| Ok (a : A)
| Raise (e : exn).
Arguments Ok {A} a.
Arguments Raise {A} e.

#[global] Instance res_ret : MRet res := fun _ a => Ok a.
#[global] Instance res_bind : MBind res := fun _ _ f m =>
  match m with
  | Ok a => f a
  | Raise e => Raise e
  end.

(** [for x in xs: acc = body(acc, x)], stopping at the first exception. *)
Fixpoint for_each {A S : Type} (body : S -> A -> res S) (xs : list A) (acc : S) : res S :=
  match xs with
  | [] => Ok acc
  | x :: xs' => acc' ← body acc x; for_each body xs' acc'
  end.

(** ** Floats *)

Inductive float : Type :=
| NaN
| Fin (q : Q).

Definition lift2 (op : Q -> Q -> Q) (x y : float) : float :=
  match x, y with
  | Fin a, Fin b => Fin (op a b)
  | _, _ => NaN
  end.

Definition fadd : float -> float -> float := lift2 Qplus.
Definition fsub : float -> float -> float := lift2 Qminus.
Definition fmul : float -> float -> float := lift2 Qmult.

Definition fabs (x : float) : float :=
  match x with
  | Fin a => Fin (Qabs a)
  | NaN => NaN
  end.

Definition Qltb (a b : Q) : bool := negb (Qle_bool b a).

(** [x < y], [x > y] and [x == y]: every comparison with NaN is false. *)
Definition fltb (x y : float) : bool :=
  match x, y with
  | Fin a, Fin b => Qltb a b
  | _, _ => false
  end.

Definition fgtb (x y : float) : bool := fltb y x.

Definition feqb (x y : float) : bool :=
  match x, y with
  | Fin a, Fin b => Qeq_bool a b
  | _, _ => false
  end.

(** [pd.isna] on a float scalar. *)
Definition isna (x : float) : bool :=
  match x with
  | NaN => true
  | Fin _ => false
  end.

(** [x / y] on floats. *)
Definition fdiv (x y : float) : res float :=
  match y with
  | Fin b => if Qeq_bool b 0 then Raise ZeroDivisionError else Ok (lift2 Qdiv x y)
  | NaN => Ok NaN
  end.

(** [a / b] on Python ints (true division). *)
Definition py_truediv (a b : Z) : res float :=
  if (b =? 0)%Z then Raise ZeroDivisionError else Ok (Fin (inject_Z a / inject_Z b)).

(** Rounding to the nearest integer, ties to even. *)
Definition round_half_even (q : Q) : Z :=
  let f := Qfloor q in
  match Qcompare (q - inject_Z f) (1 # 2) with
  | Lt => f
  | Gt => (f + 1)%Z
  | Eq => if Z.even f then f else (f + 1)%Z
  end.

Definition pow10 (ndigits : nat) : positive := Pos.pow 10 (Pos.of_nat ndigits).

(** [round(x, ndigits)] for [ndigits >= 1]; NaN stays NaN. *)
Definition py_round (x : float) (ndigits : nat) : float :=
  match x with
  | NaN => NaN
  | Fin q => Fin (round_half_even (q * (Zpos (pow10 ndigits) # 1)) # pow10 ndigits)
  end.

(** Equality of floats up to the representation of the rational, with
    NaN equal to itself: the equality used to compare expected values. *)
Definition same_float (x y : float) : bool :=
  match x, y with
  | NaN, NaN => true
  | Fin a, Fin b => Qeq_bool a b
  | _, _ => false
  end.

(** ** Strings *)

(** [needle in haystack]. *)
Fixpoint str_contains (needle haystack : string) : bool :=
  String.prefix needle haystack ||
  match haystack with
  | EmptyString => false
  | String _ rest => str_contains needle rest
  end.

(** ** Series *)

(** A column is typed once, at ingestion: [int64] (no missing value can
    be stored), [float64] (NaN is the missing value), [bool], or
    [object] (text, [None] for a missing cell). *)
Inductive Series : Type :=
| SInt64 (xs : list Z)
| SFloat64 (xs : list float)
| SBool (xs : list bool)
| SObject (xs : list (option string)).

Definition len (s : Series) : nat :=
  match s with
  | SInt64 xs => length xs
  | SFloat64 xs => length xs
  | SBool xs => length xs
  | SObject xs => length xs
  end.

(** [series.empty] *)
Definition is_empty (s : Series) : bool := Nat.eqb (len s) 0.

(** [str(series.dtype)] *)
Definition dtype (s : Series) : string :=
  match s with
  | SInt64 _ => "int64"
  | SFloat64 _ => "float64"
  | SBool _ => "bool"
  | SObject _ => "object"
  end.

(** [pd.api.types.is_numeric_dtype]: booleans count as numeric. *)
Definition is_numeric_dtype (s : Series) : bool :=
  match s with
  | SInt64 _ | SFloat64 _ | SBool _ => true
  | SObject _ => false
  end.

(** Membership in [np.number], the test of [select_dtypes]: booleans do not. *)
Definition is_number (s : Series) : bool :=
  match s with
  | SInt64 _ | SFloat64 _ => true
  | SBool _ | SObject _ => false
  end.

(** The cells of a numeric column as floats. *)
Definition values (s : Series) : list float :=
  match s with
  | SInt64 xs => map (fun z => Fin (inject_Z z)) xs
  | SFloat64 xs => xs
  | SBool xs => map (fun b : bool => Fin (if b then 1 else 0)) xs
  | SObject xs => map (fun _ => NaN) xs
  end.

(** The non-missing values of a float array ([skipna=True]). *)
Fixpoint dropna (xs : list float) : list Q :=
  match xs with
  | [] => []
  | NaN :: xs' => dropna xs'
  | Fin q :: xs' => q :: dropna xs'
  end.

Definition Qsum (xs : list Q) : Q := fold_right Qplus 0 xs.

Definition Qlen (xs : list Q) : Q := inject_Z (Z.of_nat (length xs)).

Definition Qmean (xs : list Q) : Q := Qsum xs / Qlen xs.

(** ** Reductions of pandas *)

Fixpoint insert_sorted (x : Q) (xs : list Q) : list Q :=
  match xs with
  | [] => [x]
  | y :: ys => if Qle_bool x y then x :: xs else y :: insert_sorted x ys
  end.

Definition sort_values (xs : list Q) : list Q := fold_right insert_sorted [] xs.

(** [np.percentile] with linear interpolation on sorted data: the value
    at the virtual index [q * (n - 1)]. *)
Definition percentile_linear (sorted : list Q) (q : Q) : float :=
  match sorted with
  | [] => NaN
  | x0 :: _ =>
      let idx := q * inject_Z (Z.of_nat (length sorted - 1)) in
      let lo := Qfloor idx in
      let gamma := idx - inject_Z lo in
      let a := nth (Z.to_nat lo) sorted x0 in
      let b := nth (Z.to_nat lo + 1) sorted a in
      Fin (a + gamma * (b - a))
  end.

(** [series.quantile(q)]: missing values are skipped, NaN when nothing is
    left.  On a boolean column NumPy cannot interpolate. *)
Definition quantile (s : Series) (q : Q) : res float :=
  match s with
  | SBool _ => Raise TypeError
  | _ => Ok (percentile_linear (sort_values (dropna (values s))) q)
  end.

(** [series.mean()] *)
Definition mean (s : Series) : float :=
  match dropna (values s) with
  | [] => NaN
  | v => Fin (Qmean v)
  end.

Definition Qmin_list (x : Q) (xs : list Q) : Q :=
  fold_left (fun m y => if Qle_bool y m then y else m) xs x.

Definition Qmax_list (x : Q) (xs : list Q) : Q :=
  fold_left (fun m y => if Qle_bool m y then y else m) xs x.

(** [series.min()] and [series.max()] *)
Definition smin (s : Series) : float :=
  match dropna (values s) with
  | [] => NaN
  | x :: xs => Fin (Qmin_list x xs)
  end.

Definition smax (s : Series) : float :=
  match dropna (values s) with
  | [] => NaN
  | x :: xs => Fin (Qmax_list x xs)
  end.

(** Sum of the [k]-th powers of the deviations from the mean. *)
Definition central_sum (k : positive) (v : list Q) : Q :=
  let m := Qmean v in Qsum (map (fun x => Qpower_positive (x - m) k) v).

(** [series.isnull()] *)
Definition isnull (s : Series) : list bool :=
  match s with
  | SInt64 xs => map (fun _ => false) xs
  | SFloat64 xs => map isna xs
  | SBool xs => map (fun _ => false) xs
  | SObject xs => map (fun o : option string => match o with Some _ => false | None => true end) xs
  end.

(** [series.isnull().sum()] *)
Definition isnull_sum (s : Series) : nat := length (List.filter id (isnull s)).

(** [series.isnull().all()] *)
Definition isnull_all (s : Series) : bool := forallb id (isnull s).

Fixpoint dedup {A : Type} (eqb : A -> A -> bool) (xs : list A) : list A :=
  match xs with
  | [] => []
  | x :: xs' => x :: List.filter (fun y => negb (eqb x y)) (dedup eqb xs')
  end.

(** [series.nunique()]: the number of distinct non-missing values. *)
Definition nunique (s : Series) : nat :=
  match s with
  | SInt64 xs => length (dedup Z.eqb xs)
  | SFloat64 xs => length (dedup Qeq_bool (dropna xs))
  | SBool xs => length (dedup Bool.eqb xs)
  | SObject xs => length (dedup String.eqb (omap id xs))
  end.

(** ** The dictionaries returned by the statistical engine *)

Module Outliers.
Record t : Type := mk {
  count : nat;
  percentage : float;
  lower_bound : option float;
  upper_bound : option float
}.
End Outliers.

Module Skewness.
Record t : Type := mk {
  value : option float;
  classification : string
}.
End Skewness.

Module Variability.
Record t : Type := mk {
  std_dev : option float;
  cv : option float;
  classification : string
}.
End Variability.

Module Correlation.
Record t : Type := mk {
  col_1 : string;
  col_2 : string;
  correlation : float;
  strength : string
}.
End Correlation.

Module ColumnStats.
Record t : Type := mk {
  outliers : Outliers.t;
  skewness : Skewness.t;
  variability : Variability.t
}.
End ColumnStats.

Module StatsProfile.
Record t : Type := mk {
  numeric_columns : gmap string ColumnStats.t;
  correlations : list Correlation.t
}.
End StatsProfile.

(** ** Frames *)

(** A frame: the length of its index and its labelled columns, in order. *)
Record DataFrame : Type := mkDataFrame {
  index_len : nat;
  data : list (string * Series)
}.

(** [df.columns] *)
Definition columns (df : DataFrame) : list string := map fst (data df).

(** [df.shape] *)
Definition shape (df : DataFrame) : nat * nat := (index_len df, length (data df)).

(** [df[col]].  When several columns carry the label pandas hands back a
    frame, which has none of the Series attributes the callers go on to
    use. *)
Definition getitem (df : DataFrame) (col : string) : res Series :=
  match List.filter (fun c => String.eqb (fst c) col) (data df) with
  | [] => Raise (KeyError col)
  | [c] => Ok (snd c)
  | _ :: _ :: _ => Raise AttributeError
  end.

(** [df.select_dtypes(include=[np.number])] *)
Definition select_dtypes_number (df : DataFrame) : DataFrame :=
  mkDataFrame (index_len df) (List.filter (fun c => is_number (snd c)) (data df)).

(** A cell of a frame. *)
Inductive scalar : Type :=
| VInt (z : Z)
| VFloat (x : float)
| VBool (b : bool)
| VStr (o : option string).

Definition scalar_eqb (a b : scalar) : bool :=
  match a, b with
  | VInt x, VInt y => Z.eqb x y
  | VFloat x, VFloat y => same_float x y
  | VBool x, VBool y => Bool.eqb x y
  | VStr (Some x), VStr (Some y) => String.eqb x y
  | VStr None, VStr None => true
  | _, _ => false
  end.

Definition cell (s : Series) (i : nat) : option scalar :=
  match s with
  | SInt64 xs => VInt <$> xs !! i
  | SFloat64 xs => VFloat <$> xs !! i
  | SBool xs => VBool <$> xs !! i
  | SObject xs => VStr <$> xs !! i
  end.

Definition row (df : DataFrame) (i : nat) : list (option scalar) :=
  map (fun c => cell (snd c) i) (data df).

Definition cell_eqb (a b : option scalar) : bool :=
  match a, b with
  | Some x, Some y => scalar_eqb x y
  | None, None => true
  | _, _ => false
  end.

Fixpoint row_eqb (r1 r2 : list (option scalar)) : bool :=
  match r1, r2 with
  | [], [] => true
  | a :: r1', b :: r2' => cell_eqb a b && row_eqb r1' r2'
  | _, _ => false
  end.

(** [df.duplicated()]: a row is flagged when an earlier row equals it,
    missing values being equal to each other; a frame without rows or
    without columns flags nothing. *)
Definition duplicated (df : DataFrame) : list bool :=
  if Nat.eqb (index_len df) 0 || Nat.eqb (length (data df)) 0 then []
  else map (fun i => existsb (fun j => row_eqb (row df j) (row df i)) (seq 0 i))
           (seq 0 (index_len df)).

(** The rows on which both columns hold a value. *)
Fixpoint complete_pairs (xs ys : list float) : list (Q * Q) :=
  match xs, ys with
  | Fin a :: xs', Fin b :: ys' => (a, b) :: complete_pairs xs' ys'
  | _ :: xs', _ :: ys' => complete_pairs xs' ys'
  | _, _ => []
  end.

(** ** Dictionaries *)

(** [key in d] and [d[key]] *)
Definition dict_contains {V : Type} (d : gmap string V) (key : string) : bool :=
  bool_decide (is_Some (d !! key)).

Definition dict_getitem {V : Type} (d : gmap string V) (key : string) : res V :=
  match d !! key with
  | Some v => Ok v
  | None => Raise (KeyError key)
  end.

(** ** schemas/profile.py *)

Module DatasetSummary.
Record t : Type := mk {
  total_rows : nat;
  total_columns : nat;
  file_size_kb : float;
  duplicate_rows : nat;
  memory_usage_kb : float
}.
End DatasetSummary.

Module ColumnProfile.
Record t : Type := mk {
  name : string;
  dtype : string;
  missing_count : nat;
  unique_count : nat;
  mean : option float;
  min : option float;
  max : option float;
  outliers_count : option nat;
  skewness : option string;
  variability_cv : option string
}.
End ColumnProfile.

Module ProfileReport.
Record t : Type := mk {
  filename : string;
  summary : DatasetSummary.t;
  columns : list ColumnProfile.t;
  alerts : list string;
  ai_analysis : option string
}.
End ProfileReport.

(** ** statistical_engine.py *)

Section Engine.

(** The square root of binary64. *)
Variable fsqrt : Q -> Q.

(** The text of a float inside an f-string. *)
Variable fmt : float -> string.

(** [df.memory_usage(deep=True).sum()], in bytes. *)
Variable memory_usage_sum : DataFrame -> Z.

(** [_zero_out_fperr] of pandas: a moment below [1e-14] in absolute
    value is taken to be zero. *)
Definition zero_out_fperr (x : Q) : Q :=
  if Qltb (Qabs x) (1 # 100000000000000) then 0 else x.

(** [series.skew()], the bias-corrected sample skewness of
    [pandas.core.nanops.nanskew]: NaN below three observations, zero
    when the second moment vanishes. *)
Definition skew (s : Series) : float :=
  let v := dropna (values s) in
  let count := Qlen v in
  let m2 := zero_out_fperr (central_sum 2 v) in
  let m3 := zero_out_fperr (central_sum 3 v) in
  if (length v <? 3)%nat then NaN
  else if Qeq_bool m2 0 then Fin 0
  else Fin ((count * fsqrt (count - 1) / (count - 2)) * (m3 / (m2 * fsqrt m2))).

(** [series.std()], with [ddof=1]: NaN below two observations. *)
Definition std (s : Series) : float :=
  let v := dropna (values s) in
  if (length v <=? 1)%nat then NaN
  else Fin (fsqrt (central_sum 2 v / (Qlen v - 1))).

Definition detect_outliers_iqr (series : Series) : res Outliers.t :=
  if is_empty series || negb (is_numeric_dtype series) then
    Ok (Outliers.mk 0 (Fin 0) None None)
  else
    Q1 ← quantile series (1 # 4);
    Q3 ← quantile series (3 # 4);
    let IQR := fsub Q3 Q1 in
    let lower_bound := fsub Q1 (fmul (Fin (3 # 2)) IQR) in
    let upper_bound := fadd Q3 (fmul (Fin (3 # 2)) IQR) in
    let outliers :=
      List.filter (fun x => fltb x lower_bound || fgtb x upper_bound) (values series) in
    let count := length outliers in
    ratio ← py_truediv (Z.of_nat count) (Z.of_nat (len series));
    let percentage := py_round (fmul ratio (Fin 100)) 2 in
    Ok (Outliers.mk count percentage (Some lower_bound) (Some upper_bound)).

Definition classify_skew (skew_val : float) : string :=
  if fgtb skew_val (Fin 1) then "Highly Right-Skewed (Long Tail)"
  else if fgtb skew_val (Fin (1 # 2)) then "Moderately Right-Skewed"
  else if fltb skew_val (Fin (- (1))) then "Highly Left-Skewed"
  else if fltb skew_val (Fin (- (1 # 2))) then "Moderately Left-Skewed"
  else "Symmetric".

Definition analyze_skewness (series : Series) : Skewness.t :=
  if is_empty series || negb (is_numeric_dtype series) then
    Skewness.mk None "Unknown"
  else
    let skew_val := skew series in
    if isna skew_val then Skewness.mk None "Unknown"
    else Skewness.mk (Some (py_round skew_val 2)) (classify_skew skew_val).

Definition classify_cv (cv : float) : string :=
  if fltb cv (Fin (1 # 10)) then "Low Variability (Stable)"
  else if fgtb cv (Fin 1) then "High Variability (Volatile)"
  else "Moderate Variability".

Definition analyze_variability (series : Series) : res Variability.t :=
  if is_empty series || negb (is_numeric_dtype series) then
    Ok (Variability.mk None None "Unknown")
  else
    let mean_val := mean series in
    let std_dev := std series in
    if feqb mean_val (Fin 0) then
      Ok (Variability.mk (Some (py_round std_dev 2)) None "Unknown (Mean is 0)")
    else
      cv ← fdiv std_dev (fabs mean_val);
      Ok (Variability.mk (Some (py_round std_dev 2)) (Some (py_round cv 2)) (classify_cv cv)).

(** Pearson's coefficient as [DataFrame.corr] computes it, over the rows
    where both columns hold a value (one such row is enough to try):
    NaN when the divisor vanishes. *)
Definition pearson (xs ys : list float) : float :=
  let ps := complete_pairs xs ys in
  let vx := map fst ps in
  let vy := map snd ps in
  if (length ps <? 1)%nat then NaN
  else
    let meanx := Qmean vx in
    let meany := Qmean vy in
    let ssqdm_x := central_sum 2 vx in
    let ssqdm_y := central_sum 2 vy in
    let covxy := Qsum (map (fun p => (fst p - meanx) * (snd p - meany)) ps) in
    let divisor := fsqrt (ssqdm_x * ssqdm_y) in
    if Qeq_bool divisor 0 then NaN else Fin (covxy / divisor).

(** [df.corr()], read at positions [i], [j] as [iloc] does. *)
Definition corr (df : DataFrame) (i j : nat) : float :=
  match data df !! i, data df !! j with
  | Some ci, Some cj => pearson (values (snd ci)) (values (snd cj))
  | _, _ => NaN
  end.

Definition compute_correlations (df : DataFrame) : list Correlation.t :=
  let numeric_df := select_dtypes_number df in
  if (snd (shape numeric_df) <? 2)%nat then []
  else
    let corr_matrix := corr numeric_df in
    flat_map (fun i =>
      flat_map (fun j =>
        match columns numeric_df !! i, columns numeric_df !! j with
        | Some col1, Some col2 =>
            let r_value := corr_matrix i j in
            if fgtb (fabs r_value) (Fin (7 # 10)) then
              [Correlation.mk col1 col2 (py_round r_value 2)
                 (if fgtb (fabs r_value) (Fin (9 # 10)) then "Very Strong" else "Strong")]
            else []
        | _, _ => []
        end) (seq 0 i)) (seq 0 (length (columns numeric_df))).

Definition analyze_numeric_column (df : DataFrame)
    (numeric_columns : gmap string ColumnStats.t) (col : string)
    : res (gmap string ColumnStats.t) :=
  series ← getitem df col;
  outliers ← detect_outliers_iqr series;
  let skewness := analyze_skewness series in
  variability ← analyze_variability series;
  Ok (<[col := ColumnStats.mk outliers skewness variability]> numeric_columns).

Definition run_statistical_analysis (df : DataFrame) : res StatsProfile.t :=
  let correlations := compute_correlations df in
  let numeric_cols := columns (select_dtypes_number df) in
  numeric_columns ← for_each (analyze_numeric_column df) numeric_cols ∅;
  Ok (StatsProfile.mk numeric_columns correlations).

(** ** profiler.py *)

Definition outlier_alert (col : string) (percentage : float) : string :=
  "Column '" ++ col ++ "' has " ++ fmt percentage ++ "% outliers.".

Definition volatility_alert (col : string) : string :=
  "Column '" ++ col ++ "' is highly volatile (High Variability).".

Definition correlation_alert (c : Correlation.t) : string :=
  "Strong Correlation (" ++ fmt (Correlation.correlation c) ++ ") between '"
    ++ Correlation.col_1 c ++ "' and '" ++ Correlation.col_2 c
    ++ "'. Check for multicollinearity.".

(** The body of [for col in df.columns], on the two lists it appends to. *)
Definition profile_column (df : DataFrame) (stats_results : StatsProfile.t)
    (acc : list ColumnProfile.t * list string) (col : string)
    : res (list ColumnProfile.t * list string) :=
  let columns_profile := fst acc in
  let alerts := snd acc in
  series ← getitem df col;
  let dtype := dtype series in
  let missing := isnull_sum series in
  let unique := nunique series in
  if is_numeric_dtype series then
    let mean := if negb (isnull_all series) then Some (mean series) else None in
    let min := if negb (isnull_all series) then Some (smin series) else None in
    let max := if negb (isnull_all series) then Some (smax series) else None in
    if dict_contains (StatsProfile.numeric_columns stats_results) col then
      stat_data ← dict_getitem (StatsProfile.numeric_columns stats_results) col;
      let outliers := ColumnStats.outliers stat_data in
      let variability := ColumnStats.variability stat_data in
      let col_stats :=
        ColumnProfile.mk col dtype missing unique mean min max
          (Some (Outliers.count outliers))
          (Some (Skewness.classification (ColumnStats.skewness stat_data)))
          (Some (Variability.classification variability)) in
      let alerts :=
        if fgtb (Outliers.percentage outliers) (Fin 5)
        then alerts ++ [outlier_alert col (Outliers.percentage outliers)]
        else alerts in
      let alerts :=
        if str_contains "High" (Variability.classification variability)
        then alerts ++ [volatility_alert col]
        else alerts in
      Ok (columns_profile ++ [col_stats], alerts)
    else
      Ok (columns_profile
            ++ [ColumnProfile.mk col dtype missing unique mean min max (Some 0%nat) None None],
          alerts)
  else
    Ok (columns_profile
          ++ [ColumnProfile.mk col dtype missing unique None None None (Some 0%nat) None None],
        alerts).

(** [analyze_dataset] from the point where the statistical engine has
    returned [stats_results]. *)
Definition build_report (df : DataFrame) (filename : string)
    (stats_results : StatsProfile.t) : res ProfileReport.t :=
  let total_rows := fst (shape df) in
  let total_cols := snd (shape df) in
  let memory_usage := Fin (inject_Z (memory_usage_sum df) / 1024) in
  let duplicate_rows := length (List.filter id (duplicated df)) in
  acc ← for_each (profile_column df stats_results) (columns df) ([], []);
  let columns_profile := fst acc in
  let alerts :=
    snd acc ++ map correlation_alert (StatsProfile.correlations stats_results) in
  let summary :=
    DatasetSummary.mk total_rows total_cols (py_round memory_usage 2)
      duplicate_rows (py_round memory_usage 2) in
  Ok (ProfileReport.mk filename summary columns_profile alerts None).

Definition analyze_dataset (df : DataFrame) (filename : string) : res ProfileReport.t :=
  stats_results ← run_statistical_analysis df;
  build_report df filename stats_results.

End Engine.

(** ** ai_analyst.py *)

(** A Python number: the completeness is the int [0] on one path and a
    rounded float on the other, and the two print differently. *)
Inductive number : Type :=
| PyInt (z : Z)
| PyFloat (x : float).

Definition to_float (n : number) : float :=
  match n with
  | PyInt z => Fin (inject_Z z)
  | PyFloat x => x
  end.

Module Confidence.
Record t : Type := mk {
  score : string;
  completeness : number;
  sample_size : nat;
  warnings : list string
}.
End Confidence.

Section Analyst.

Variable fmt : float -> string.

(** The text of a number inside an f-string. *)
Definition fmt_number (n : number) : string :=
  match n with
  | PyInt z => pretty z
  | PyFloat x => fmt x
  end.

Definition size_warning : string :=
  "Sample size is too small for statistical significance.".

Definition completeness_warning (completeness : number) : string :=
  "Data is only " ++ fmt_number completeness ++ "% complete.".

Definition calculate_data_confidence (profile : ProfileReport.t) : res Confidence.t :=
  let summary := ProfileReport.summary profile in
  let sample_size := DatasetSummary.total_rows summary in
  let total_cells :=
    (Z.of_nat (DatasetSummary.total_rows summary)
     * Z.of_nat (DatasetSummary.total_columns summary))%Z in
  let total_missing :=
    fold_right Z.add 0%Z
      (map (fun c => Z.of_nat (ColumnProfile.missing_count c))
           (ProfileReport.columns profile)) in
  completeness ←
    (if (total_cells >? 0)%Z then
       ratio ← py_truediv (total_cells - total_missing) total_cells;
       Ok (PyFloat (py_round (fmul ratio (Fin 100)) 1))
     else Ok (PyInt 0));
  let rule_a :=
    if (sample_size <? 50)%nat then ("LOW (Insufficient Data)", [size_warning])
    else if (sample_size <? 200)%nat then ("MEDIUM", [])
    else ("HIGH", []) in
  let rule_b :=
    if fltb (to_float completeness) (Fin 80)
    then ("LOW (Poor Data Quality)", snd rule_a ++ [completeness_warning completeness])
    else rule_a in
  Ok (Confidence.mk (fst rule_b) completeness sample_size (snd rule_b)).

End Analyst.

(** ** Instances of the parameters, to run the engine *)

(** A square root that is exact on the squares of rationals and truncated
    to sixteen decimals elsewhere. *)
Definition Qsqrt (q : Q) : Q :=
  let scale := (10 ^ 16)%Z in
  Z.sqrt (Qnum q * Zpos (Qden q) * scale * scale) # (Qden q * Z.to_pos scale).

Fixpoint frac_digits (fuel : nat) (num : Z) (den : Z) : string :=
  match fuel with
  | O => ""
  | S fuel' =>
      let d := (num * 10 / den)%Z in
      let r := (num * 10 - d * den)%Z in
      pretty d ++ (if (r =? 0)%Z then "" else frac_digits fuel' r den)
  end.

(** The text Python prints for a float with a short decimal expansion:
    [16.67], [20.0], [-0.95], [nan]. *)
Definition float_repr (x : float) : string :=
  match x with
  | NaN => "nan"
  | Fin q =>
      let n := Z.abs (Qnum q) in
      let d := Zpos (Qden q) in
      (if (Qnum q <? 0)%Z then "-" else "")
        ++ pretty (n / d)%Z ++ "." ++ frac_digits 17 (n mod d)%Z d
  end.


(** ** Derived notions used to state the facts *)

(** The share of [count] among [total] cells, in percent, to two decimals. *)
Definition percent_of (count total : nat) : float :=
  py_round (fmul (Fin (inject_Z (Z.of_nat count) / inject_Z (Z.of_nat total))) (Fin 100)) 2.

(** A table as the ingestion layer hands it over: the labels are
    distinct and every column is as long as the index. *)
Definition well_formed (df : DataFrame) : Prop :=
  NoDup (columns df) /\ Forall (fun c => len (snd c) = index_len df) (data df).

Section Derived.

Variable fsqrt : Q -> Q.
Variable fmt : float -> string.
Variable memory_usage_sum : DataFrame -> Z.

(** The summary [analyze_dataset] assembles. *)
Definition dataset_summary (df : DataFrame) : DatasetSummary.t :=
  let kb := py_round (Fin (inject_Z (memory_usage_sum df) / 1024)) 2 in
  DatasetSummary.mk (index_len df) (length (data df)) kb
    (length (List.filter id (duplicated df))) kb.

(** The entry [run_statistical_analysis] stores for a numeric column. *)
Definition column_stats (series : Series) : res ColumnStats.t :=
  outliers ← detect_outliers_iqr series;
  variability ← analyze_variability fsqrt series;
  Ok (ColumnStats.mk outliers (analyze_skewness fsqrt series) variability).

(** What one round of the column loop appends to [columns_profile], given
    the entry [stat_data] found for the column in the engine's result. *)
Definition column_profile (col : string) (series : Series)
    (stat_data : option ColumnStats.t) : ColumnProfile.t :=
  let basic := ColumnProfile.mk col (dtype series) (isnull_sum series) (nunique series) in
  if is_numeric_dtype series then
    let present (x : float) := if negb (isnull_all series) then Some x else None in
    let numeric := basic (present (mean series)) (present (smin series)) (present (smax series)) in
    match stat_data with
    | Some sd =>
        numeric (Some (Outliers.count (ColumnStats.outliers sd)))
          (Some (Skewness.classification (ColumnStats.skewness sd)))
          (Some (Variability.classification (ColumnStats.variability sd)))
    | None => numeric (Some 0%nat) None None
    end
  else basic None None None (Some 0%nat) None None.

(** The alerts a set of diagnostics gives rise to: the outlier alert
    first, the volatility alert second. *)
Definition diagnostic_alerts (col : string) (sd : ColumnStats.t) : list string :=
  (if fgtb (Outliers.percentage (ColumnStats.outliers sd)) (Fin 5)
   then [outlier_alert fmt col (Outliers.percentage (ColumnStats.outliers sd))]
   else [])
  ++ (if str_contains "High" (Variability.classification (ColumnStats.variability sd))
      then [volatility_alert col]
      else []).

(** What one round of the column loop appends to [alerts]. *)
Definition column_alerts (col : string) (series : Series)
    (stat_data : option ColumnStats.t) : list string :=
  if is_numeric_dtype series then
    match stat_data with
    | Some sd => diagnostic_alerts col sd
    | None => []
    end
  else [].

(** The alerts of a column of the table, from the column alone. *)
Definition alerts_of_column (c : string * Series) : list string :=
  if is_number (snd c) then
    match column_stats (snd c) with
    | Ok sd => diagnostic_alerts (fst c) sd
    | Raise _ => []
    end
  else [].

(** The alert list in the order the specification gives: the alerts of
    the columns in table order, then one alert per correlation finding,
    worded by [phrase]. *)
Definition alerts_in_order (phrase : Correlation.t -> string) (df : DataFrame)
    : list string :=
  flat_map alerts_of_column (data df) ++ map phrase (compute_correlations fsqrt df).

(** The correlation alert as the specification words it. *)
Definition spec_correlation_alert (c : Correlation.t) : string :=
  "Strong Correlation (" ++ fmt (Correlation.correlation c) ++ ") between '"
    ++ Correlation.col_1 c ++ "' and '" ++ Correlation.col_2 c ++ "'".

(** The positions [compute_correlations] visits, in the order of its two
    loops: [(1,0), (2,0), (2,1), (3,0), ...]. *)
Definition lower_triangle (n : nat) : list (nat * nat) :=
  flat_map (fun i => map (fun j => (i, j)) (seq 0 i)) (seq 0 n).

(** The finding, if any, for the columns at positions [i] and [j] of the
    numeric columns. *)
Definition finding (numeric : list (string * Series)) (p : nat * nat)
    : option Correlation.t :=
  match numeric !! fst p, numeric !! snd p with
  | Some c1, Some c2 =>
      let r := pearson fsqrt (values (snd c1)) (values (snd c2)) in
      if fgtb (fabs r) (Fin (7 # 10)) then
        Some (Correlation.mk (fst c1) (fst c2) (py_round r 2)
                (if fgtb (fabs r) (Fin (9 # 10)) then "Very Strong" else "Strong"))
      else None
  | _, _ => None
  end.

(** Two engine results that agree on everything but the numbers behind
    the shape and volatility labels. *)
Definition same_labels_entry (a b : ColumnStats.t) : Prop :=
  ColumnStats.outliers a = ColumnStats.outliers b /\
  Skewness.classification (ColumnStats.skewness a)
  = Skewness.classification (ColumnStats.skewness b) /\
  Variability.classification (ColumnStats.variability a)
  = Variability.classification (ColumnStats.variability b).

Definition same_labels (a b : StatsProfile.t) : Prop :=
  StatsProfile.correlations a = StatsProfile.correlations b /\
  forall col,
    option_Forall2 same_labels_entry
      (StatsProfile.numeric_columns a !! col) (StatsProfile.numeric_columns b !! col).

End Derived.

(** ** Example data *)

Definition scenario_A : Series := SInt64 [1; 2; 3; 4; 100]%Z.
Definition scenario_B : Series := SInt64 [5; 5; 5; 5]%Z.
Definition with_missing : Series := SFloat64 [Fin 1; Fin 2; Fin 3; Fin 4; Fin 100; NaN].
Definition no_rows : Series := SFloat64 [].

Definition two_values : Series := SInt64 [5; 5]%Z.

(** A table with an integer, a float, a text and a boolean column. *)
Definition sample_table : DataFrame :=
  mkDataFrame 5
    [("a", SInt64 [1; 2; 3; 4; 100]%Z);
     ("b", SFloat64 [Fin 2; Fin 4; Fin 6; Fin 8; NaN]);
     ("c", SObject [Some "x"; None; Some "x"; Some "y"; Some "z"]);
     ("d", SBool [true; false; true; true; false])].

(** A memory estimate to run the profiler with: eight bytes a cell. *)
Definition flat_memory_usage (df : DataFrame) : Z :=
  (8 * Z.of_nat (index_len df) * Z.of_nat (length (data df)))%Z.

(** Scenario E: 500 rows, two columns, 400 cells missing (60% complete). *)
Definition scenario_E : ProfileReport.t :=
  ProfileReport.mk "e.csv" (DatasetSummary.mk 500 2 (Fin 8) 0 (Fin 8))
    [ColumnProfile.mk "x" "float64" 400 100 None None None (Some 0%nat) None None;
     ColumnProfile.mk "y" "int64" 0 500 None None None (Some 0%nat) None None]
    [] None.

(** The outlier percentage as the specification words it: over the
    non-missing length of the column. *)
Definition spec_outlier_percentage (s : Series) (count : nat) : float :=
  percent_of count (length (dropna (values s))).

(** The skewness of a column as a rational, zero when undefined. *)
Definition skew_value (s : Series) : Q :=
  match skew Qsqrt s with
  | Fin q => q
  | NaN => 0
  end.

(** The labels of the shape classifier as the specification words them. *)
Definition spec_skew_label (q : Q) : string :=
  if Qltb 1 q then "Highly Right-Skewed"
  else if Qltb (1 # 2) q then "Moderately Right-Skewed"
  else if Qltb q (- (1)) then "Highly Left-Skewed"
  else if Qltb q (- (1 # 2)) then "Moderately Left-Skewed"
  else "Symmetric".

(** ** validator.py *)

(** [str.lower] on ASCII text: the letters [A-Z] are mapped to [a-z],
    every other byte is left alone.  Questions and labels are taken to be
    ASCII text. *)
Definition ascii_lower (c : ascii) : ascii :=
  let n := nat_of_ascii c in
  if (65 <=? n)%nat && (n <=? 90)%nat then ascii_of_nat (n + 32) else c.

Fixpoint str_lower (s : string) : string :=
  match s with
  | EmptyString => EmptyString
  | String c rest => String (ascii_lower c) (str_lower rest)
  end.

(** [d[key] = value] on a Python dict, which keeps the order of first
    insertion: a known key keeps its place and takes the new value. *)
Fixpoint odict_set {V : Type} (key : string) (value : V) (d : list (string * V))
    : list (string * V) :=
  match d with
  | [] => [(key, value)]
  | (k, v) :: d' =>
      if String.eqb k key then (k, value) :: d' else (k, v) :: odict_set key value d'
  end.

(** [{col['name']: col for col in columns}] *)
Definition columns_by_name (cols : list ColumnProfile.t)
    : list (string * ColumnProfile.t) :=
  fold_left (fun d col => odict_set (ColumnProfile.name col) col d) cols [].

(** [any(word in text for word in words)] *)
Definition any_word_in (words : list string) (text : string) : bool :=
  existsb (fun word => str_contains word text) words.

Definition aggregation_words : list string :=
  ["average"; "mean"; "sum"; "median"; "max"; "min"].
Definition correlation_words : list string :=
  ["correlation"; "relationship"; "trend"; "predict"].
Definition distribution_words : list string :=
  ["distribution"; "histogram"; "breakdown"; "count"].

Definition detect_intent (question_lower : string) : string :=
  if any_word_in aggregation_words question_lower then "aggregation"
  else if any_word_in correlation_words question_lower then "correlation"
  else if any_word_in distribution_words question_lower then "distribution"
  else "general_query".

(** [dtype in ['int64', 'float64', 'int', 'float']] *)
Definition numeric_dtype_name (dtype : string) : bool :=
  existsb (String.eqb dtype) ["int64"; "float64"; "int"; "float"].

Module Validation.
Record t : Type := mk {
  is_valid : bool;
  intent : string;
  found_columns : list string;
  suggestion : string;
  warning : option string
}.
End Validation.

Definition aggregation_warning (intent col_name : string) : string :=
  "Cannot calculate " ++ intent ++ " on text column '" ++ col_name ++ "'.".

(** Rule 1, one round of [for col in found_columns] on the dictionary
    under construction. *)
Definition reject_text_column (intent : string) (v : Validation.t)
    (col : ColumnProfile.t) : Validation.t :=
  if negb (numeric_dtype_name (ColumnProfile.dtype col)) then
    Validation.mk false (Validation.intent v) (Validation.found_columns v)
      "Try counting unique values instead."
      (Some (aggregation_warning intent (ColumnProfile.name col)))
  else v.

Definition validate_analysis_intent (profile : ProfileReport.t) (question : string)
    : Validation.t :=
  let columns_info := columns_by_name (ProfileReport.columns profile) in
  let found_columns :=
    map snd
      (List.filter (fun kv => str_contains (str_lower (fst kv)) (str_lower question))
         columns_info) in
  let question_lower := str_lower question in
  let intent := detect_intent question_lower in
  let validation_result :=
    Validation.mk true intent (map ColumnProfile.name found_columns)
      "Proceed with analysis." None in
  let validation_result :=
    if String.eqb intent "aggregation"
    then fold_left (reject_text_column intent) found_columns validation_result
    else validation_result in
  if String.eqb intent "correlation"
     && (length found_columns <? 2)%nat
     && (1 <? length (ProfileReport.columns profile))%nat
  then
    Validation.mk (Validation.is_valid validation_result)
      (Validation.intent validation_result)
      (Validation.found_columns validation_result)
      (Validation.suggestion validation_result)
      (Some "Correlation usually requires two specific variables.")
  else validation_result.

(** A table with a constant column between two correlated ones. *)
Definition table_with_constant : DataFrame :=
  mkDataFrame 3
    [("a", SInt64 [1; 2; 3]%Z);
     ("k", SInt64 [7; 7; 7]%Z);
     ("b", SFloat64 [Fin 2; Fin 4; Fin 6])].

(** The order of the two loops of [compute_correlations] on positions. *)
Definition loop_before (p1 p2 : nat * nat) : Prop :=
  (fst p1 < fst p2)%nat \/ (fst p1 = fst p2 /\ (snd p1 < snd p2)%nat).

(** A profile of a file with a header and no rows. *)
Definition header_only : ProfileReport.t :=
  ProfileReport.mk "h.csv" (DatasetSummary.mk 0 1 (Fin 0) 0 (Fin 0))
    [ColumnProfile.mk "x" "object" 0 0 None None None (Some 0%nat) None None]
    [] None.

(** A profile of 250 complete rows. *)
Definition complete_profile : ProfileReport.t :=
  ProfileReport.mk "c.csv" (DatasetSummary.mk 250 2 (Fin 4) 0 (Fin 4))
    [ColumnProfile.mk "x" "float64" 0 250 None None None (Some 0%nat) None None;
     ColumnProfile.mk "y" "int64" 0 17 None None None (Some 0%nat) None None]
    [] None.

(** [sum(c['missing_count'] for c in profile['columns'])] *)
Definition total_missing (profile : ProfileReport.t) : Z :=
  fold_right Z.add 0%Z
    (map (fun c => Z.of_nat (ColumnProfile.missing_count c)) (ProfileReport.columns profile)).

(** [total_rows * total_columns] *)
Definition total_cells (profile : ProfileReport.t) : Z :=
  (Z.of_nat (DatasetSummary.total_rows (ProfileReport.summary profile))
   * Z.of_nat (DatasetSummary.total_columns (ProfileReport.summary profile)))%Z.

(** Three columns that rise together. *)
Definition three_trends : DataFrame :=
  mkDataFrame 3
    [("a", SInt64 [1; 2; 3]%Z);
     ("b", SInt64 [2; 4; 6]%Z);
     ("c", SFloat64 [Fin 3; Fin 6; Fin 9])].

(** The [found_columns] list of [validate_analysis_intent]: the profile
    columns whose lowered name occurs in the lowered question. *)
Definition found_columns_of (profile : ProfileReport.t) (question : string)
    : list ColumnProfile.t :=
  map snd
    (List.filter (fun kv => str_contains (str_lower (fst kv)) (str_lower question))
       (columns_by_name (ProfileReport.columns profile))).

(** A profile with a text and an integer column. *)
Definition people_profile : ProfileReport.t :=
  ProfileReport.mk "people.csv" (DatasetSummary.mk 5 2 (Fin 1) 0 (Fin 1))
    [ColumnProfile.mk "Name" "object" 0 5 None None None (Some 0%nat) None None;
     ColumnProfile.mk "Age" "int64" 0 5 None None None (Some 0%nat) None None]
    [] None.

(** A table whose first column holds no value at all. *)
Definition all_missing_table : DataFrame :=
  mkDataFrame 2
    [("x", SFloat64 [NaN; NaN]);
     ("y", SObject [Some "a"; Some "b"])].

(** The default diagnostic fields of a column profile, as the schema and
    the specification give them: no outlier, no shape label, no
    volatility label. *)
Definition default_diagnostics (cp : ColumnProfile.t) : Prop :=
  ColumnProfile.outliers_count cp = Some 0%nat /\
  ColumnProfile.skewness cp = None /\
  ColumnProfile.variability_cv cp = None.

(** * Facts *)

Lemma Qltb_lt (a b : Q) : Qltb a b = true <-> a < b.
Proof.
  unfold Qltb. rewrite negb_true_iff, <- not_true_iff_false, Qle_bool_iff.
  split; [apply Qnot_le_lt | apply Qlt_not_le].
Qed.

Lemma Qltb_ge (a b : Q) : Qltb a b = false <-> b <= a.
Proof.
  unfold Qltb. rewrite negb_false_iff. apply Qle_bool_iff.
Qed.

Lemma fltb_Fin (a b : Q) : fltb (Fin a) (Fin b) = true <-> a < b.
Proof. apply Qltb_lt. Qed.

Lemma fgtb_Fin (a b : Q) : fgtb (Fin a) (Fin b) = true <-> b < a.
Proof. apply Qltb_lt. Qed.

Lemma dropna_all_nan {A : Type} (xs : list A) : dropna (map (fun _ => NaN) xs) = [].
Proof. induction xs as [|x xs IH]; [reflexivity | exact IH]. Qed.

Lemma is_empty_values (s : Series) : is_empty s = true -> values s = [].
Proof.
  unfold is_empty. intros H%Nat.eqb_eq.
  destruct s as [xs|xs|xs|xs]; destruct xs; simpl in *; congruence.
Qed.

Lemma not_numeric_dropna (s : Series) :
  is_numeric_dtype s = false -> dropna (values s) = [].
Proof.
  destruct s as [xs|xs|xs|xs]; simpl; try discriminate.
  intros _. apply dropna_all_nan.
Qed.

Section EngineFacts.

Variable fsqrt : Q -> Q.
Variable fmt : float -> string.
Variable memory_usage_sum : DataFrame -> Z.

Lemma skew_defined_guard (s : Series) (q : Q) :
  skew fsqrt s = Fin q -> is_empty s || negb (is_numeric_dtype s) = false.
Proof.
  intros H. apply orb_false_iff. split.
  - destruct (is_empty s) eqn:E; [|reflexivity].
    unfold skew in H. rewrite (is_empty_values s E) in H. discriminate.
  - apply negb_false_iff. destruct (is_numeric_dtype s) eqn:E; [reflexivity|].
    unfold skew in H. rewrite (not_numeric_dropna s E) in H. discriminate.
Qed.

Lemma classify_skew_cases (q : Q) :
  (1 < q /\ classify_skew (Fin q) = "Highly Right-Skewed (Long Tail)") \/
  (1 # 2 < q <= 1 /\ classify_skew (Fin q) = "Moderately Right-Skewed") \/
  (q < - (1) /\ classify_skew (Fin q) = "Highly Left-Skewed") \/
  (- (1) <= q < - (1 # 2) /\ classify_skew (Fin q) = "Moderately Left-Skewed") \/
  (- (1 # 2) <= q <= 1 # 2 /\ classify_skew (Fin q) = "Symmetric").
Proof.
  unfold classify_skew.
  destruct (fgtb (Fin q) (Fin 1)) eqn:E1.
  { apply fgtb_Fin in E1. left. split; [lra | reflexivity]. }
  apply Qltb_ge in E1.
  destruct (fgtb (Fin q) (Fin (1 # 2))) eqn:E2.
  { apply fgtb_Fin in E2. right; left. split; [lra | reflexivity]. }
  apply Qltb_ge in E2.
  destruct (fltb (Fin q) (Fin (- (1)))) eqn:E3.
  { apply fltb_Fin in E3. right; right; left. split; [lra | reflexivity]. }
  apply Qltb_ge in E3.
  destruct (fltb (Fin q) (Fin (- (1 # 2)))) eqn:E4.
  { apply fltb_Fin in E4. right; right; right; left. split; [lra | reflexivity]. }
  apply Qltb_ge in E4.
  right; right; right; right. split; [lra | reflexivity].
Qed.

(** C5 (amended): when the skewness of a column is a number [q], the
    shape classifier reports [q] rounded to two decimals and exactly one
    of five labels, fixed by the thresholds: [q > 1] gives
    "Highly Right-Skewed (Long Tail)", [0.5 < q <= 1] gives
    "Moderately Right-Skewed", [q < -1] gives "Highly Left-Skewed",
    [-1 <= q < -0.5] gives "Moderately Left-Skewed", and anything else
    gives "Symmetric". *)
Theorem skewness_buckets (series : Series) (q : Q) :
  skew fsqrt series = Fin q ->
  let r := analyze_skewness fsqrt series in
  let c := Skewness.classification r in
  Skewness.value r = Some (py_round (Fin q) 2) /\
  (c = "Highly Right-Skewed (Long Tail)" <-> 1 < q) /\
  (c = "Moderately Right-Skewed" <-> 1 # 2 < q <= 1) /\
  (c = "Highly Left-Skewed" <-> q < - (1)) /\
  (c = "Moderately Left-Skewed" <-> - (1) <= q < - (1 # 2)) /\
  (c = "Symmetric" <-> - (1 # 2) <= q <= 1 # 2).
Proof.
  intros H. unfold analyze_skewness.
  rewrite (skew_defined_guard series q H), H. cbn [isna Skewness.value Skewness.classification].
  split; [reflexivity|].
  destruct (classify_skew_cases q) as [[R ->]|[[R ->]|[[R ->]|[[R ->]|[R ->]]]]];
    repeat split; intros; try discriminate; try reflexivity; try lra.
Qed.

Lemma Qsum_repeat_zero (b : Q) (n : nat) : b == 0 -> Qsum (repeat b n) == 0.
Proof.
  intros Hb. induction n as [|n IH]; simpl; [reflexivity|].
  rewrite IH, Hb. reflexivity.
Qed.

Lemma Qsum_repeat (a : Q) (n : nat) :
  Qsum (repeat a n) == inject_Z (Z.of_nat n) * a.
Proof.
  induction n as [|n IH].
  - simpl. ring.
  - rewrite Nat2Z.inj_succ. cbn [repeat Qsum fold_right]. fold (Qsum (repeat a n)).
    rewrite IH. unfold Z.succ. rewrite inject_Z_plus. ring.
Qed.

Lemma Qmean_repeat (a : Q) (n : nat) : (0 < n)%nat -> Qmean (repeat a n) == a.
Proof.
  intros Hn. unfold Qmean, Qlen. rewrite Qsum_repeat, repeat_length.
  assert (0 < inject_Z (Z.of_nat n)) as Hpos.
  { change 0 with (inject_Z 0). rewrite <- Zlt_Qlt. lia. }
  field. lra.
Qed.

Lemma central_sum_repeat (a : Q) (n : nat) :
  (0 < n)%nat -> central_sum 2 (repeat a n) == 0.
Proof.
  intros Hn. unfold central_sum.
  assert (map (fun x => Qpower_positive (x - Qmean (repeat a n)) 2) (repeat a n)
          = repeat (Qpower_positive (a - Qmean (repeat a n)) 2) n) as ->.
  { generalize (Qmean (repeat a n)). intros m. clear Hn.
    induction n as [|n IH]; cbn [map repeat]; [reflexivity | now f_equal]. }
  apply Qsum_repeat_zero.
  change (Qpower_positive ?x 2) with (x * x).
  rewrite (Qmean_repeat a n Hn). ring.
Qed.

Lemma zero_out_fperr_zero (x : Q) : x == 0 -> zero_out_fperr x = 0.
Proof.
  intros Hx. unfold zero_out_fperr.
  assert (Qltb (Qabs x) (1 # 100000000000000) = true) as ->; [|reflexivity].
  apply Qltb_lt. rewrite Hx. reflexivity.
Qed.

Lemma dropna_Int64 (xs : list Z) :
  dropna (values (SInt64 xs)) = map inject_Z xs.
Proof. induction xs as [|x xs IH]; simpl; [reflexivity | now f_equal]. Qed.

Lemma skew_constant (z : Z) (n : nat) :
  (3 <= n)%nat -> skew fsqrt (SInt64 (repeat z n)) = Fin 0.
Proof.
  intros Hn. unfold skew. rewrite dropna_Int64, map_repeat, repeat_length.
  destruct (Nat.ltb_spec n 3) as [?|_]; [lia|].
  rewrite (zero_out_fperr_zero (central_sum 2 _)); [reflexivity|].
  apply central_sum_repeat. lia.
Qed.

Lemma skew_few_values (s : Series) :
  (length (dropna (values s)) < 3)%nat -> skew fsqrt s = NaN.
Proof.
  intros H. unfold skew.
  destruct (Nat.ltb_spec (length (dropna (values s))) 3) as [_|?]; [reflexivity | lia].
Qed.

Lemma analyze_skewness_nan (s : Series) :
  isna (skew fsqrt s) = true -> analyze_skewness fsqrt s = Skewness.mk None "Unknown".
Proof.
  intros H. unfold analyze_skewness. rewrite H.
  destruct (is_empty s || negb (is_numeric_dtype s)); reflexivity.
Qed.

(** C6 (amended): a column whose skewness is NaN is classified
    "Unknown" with a null skewness value; the constant column [5,5,5,5]
    is not such a column: its skewness is 0.0, and it is classified
    "Symmetric" with value 0.0. *)
Theorem skewness_undefined :
  (forall series, isna (skew fsqrt series) = true ->
     analyze_skewness fsqrt series = Skewness.mk None "Unknown") /\
  skew fsqrt scenario_B = Fin 0 /\
  analyze_skewness fsqrt scenario_B = Skewness.mk (Some (Fin (0 # 100))) "Symmetric".
Proof.
  split; [exact analyze_skewness_nan|].
  assert (skew fsqrt scenario_B = Fin 0) as H by (apply (skew_constant 5 4); lia).
  split; [exact H|]. unfold analyze_skewness. rewrite H. reflexivity.
Qed.

Lemma Qabs_zero (a : Q) : Qabs a == 0 -> a == 0.
Proof. apply Qabs_case; intros; lra. Qed.

Lemma fdiv_abs (y x : float) :
  feqb x (Fin 0) = false -> fdiv y (fabs x) = Ok (lift2 Qdiv y (fabs x)).
Proof.
  destruct x as [|a]; simpl; [destruct y; reflexivity|]. intros H.
  destruct (Qeq_bool (Qabs a) 0) eqn:E; [|reflexivity].
  apply Qeq_bool_iff, Qabs_zero, Qeq_bool_iff in E. congruence.
Qed.

Lemma classify_cv_cases (c : float) :
  (fltb c (Fin (1 # 10)) = true /\ classify_cv c = "Low Variability (Stable)") \/
  (fltb c (Fin (1 # 10)) = false /\ fgtb c (Fin 1) = true
     /\ classify_cv c = "High Variability (Volatile)") \/
  (fltb c (Fin (1 # 10)) = false /\ fgtb c (Fin 1) = false
     /\ classify_cv c = "Moderate Variability").
Proof.
  unfold classify_cv.
  destruct (fltb c (Fin (1 # 10))); [left; split; reflexivity|].
  destruct (fgtb c (Fin 1)); [right; left | right; right]; repeat split; reflexivity.
Qed.

Lemma feqb_zero (x : float) :
  feqb x (Fin 0) = true <-> exists m, x = Fin m /\ m == 0.
Proof.
  destruct x as [|a]; simpl.
  - split; [discriminate | intros (m & H & _); discriminate].
  - rewrite Qeq_bool_iff. split; [intros H; now exists a|].
    intros (m & [= ->] & H). exact H.
Qed.

(** C7 (amended): on a non-empty numeric column the volatility
    classifier always returns (no division error); it returns
    "Unknown (Mean is 0)", and a null CV, exactly when the mean equals 0;
    otherwise CV = std-dev / |mean|, reported rounded to two decimals,
    and the label is "Low Variability (Stable)" exactly when CV < 0.1,
    "High Variability (Volatile)" exactly when CV > 1.0, and
    "Moderate Variability" in every remaining case. *)
Theorem variability_classes (series : Series) :
  is_empty series = false ->
  is_numeric_dtype series = true ->
  let mean_is_zero := exists m, mean series = Fin m /\ m == 0 in
  exists r, analyze_variability fsqrt series = Ok r /\
    Variability.std_dev r = Some (py_round (std fsqrt series) 2) /\
    (Variability.classification r = "Unknown (Mean is 0)" <-> mean_is_zero) /\
    (Variability.cv r = None <-> mean_is_zero) /\
    (~ mean_is_zero ->
       let cv := lift2 Qdiv (std fsqrt series) (fabs (mean series)) in
       Variability.cv r = Some (py_round cv 2) /\
       (Variability.classification r = "Low Variability (Stable)"
          <-> fltb cv (Fin (1 # 10)) = true) /\
       (Variability.classification r = "High Variability (Volatile)"
          <-> fgtb cv (Fin 1) = true) /\
       (Variability.classification r = "Moderate Variability"
          <-> fltb cv (Fin (1 # 10)) = false /\ fgtb cv (Fin 1) = false)).
Proof.
  intros Hne Hnum mean_is_zero.
  assert (mean_is_zero <-> feqb (mean series) (Fin 0) = true) as Hz
    by (symmetry; apply feqb_zero).
  clearbody mean_is_zero.
  unfold analyze_variability. rewrite Hne, Hnum. cbn [negb orb].
  destruct (feqb (mean series) (Fin 0)) eqn:Hm.
  - eexists. split; [reflexivity|]. cbn. rewrite !Hz.
    repeat split; intros; try reflexivity; try discriminate; contradiction.
  - rewrite (fdiv_abs _ _ Hm). cbn [mbind res_bind].
    set (cv := lift2 Qdiv (std fsqrt series) (fabs (mean series))).
    eexists. split; [reflexivity|].
    cbn [Variability.std_dev Variability.cv Variability.classification].
    rewrite !Hz. split; [reflexivity|].
    assert (classify_cv cv <> "Unknown (Mean is 0)") as Hunk.
    { destruct (classify_cv_cases cv) as [[_ ->]|[(_ & _ & ->)|(_ & _ & ->)]]; discriminate. }
    split; [split; [intros; contradiction | discriminate]|].
    split; [split; discriminate|].
    intros _. split; [reflexivity|].
    destruct (classify_cv_cases cv) as [[A ->]|[(A & B & ->)|(A & B & ->)]];
      rewrite ?A, ?B; repeat split; intros; try discriminate; try reflexivity.
    + exfalso. unfold fgtb, fltb in *. destruct cv as [|c]; [discriminate|].
      apply Qltb_lt in A. apply Qltb_lt in H. lra.
    + destruct H; discriminate.
    + destruct H; discriminate.
Qed.

Lemma round_half_even_eq (a b : Q) : a == b -> round_half_even a = round_half_even b.
Proof.
  intros H. unfold round_half_even.
  rewrite (Qfloor_comp a b H).
  assert (Qcompare (a - inject_Z (Qfloor b)) (1 # 2)
          = Qcompare (b - inject_Z (Qfloor b)) (1 # 2)) as ->; [|reflexivity].
  now rewrite H.
Qed.

Lemma filter_outside_nan (xs : list float) (lower upper : float) :
  lower = NaN -> upper = NaN ->
  List.filter (fun x => fltb x lower || fgtb x upper) xs = [].
Proof.
  intros -> ->. induction xs as [|x xs IH]; [reflexivity|].
  cbn [List.filter]. destruct x; exact IH.
Qed.

Lemma quantile_number (s : Series) (q : Q) :
  is_number s = true ->
  quantile s q = Ok (percentile_linear (sort_values (dropna (values s))) q).
Proof. destruct s; simpl; try discriminate; reflexivity. Qed.

Lemma is_number_numeric (s : Series) : is_number s = true -> is_numeric_dtype s = true.
Proof. destruct s; simpl; congruence. Qed.

Lemma py_truediv_ok (a : Z) (n : nat) :
  (n <> 0)%nat ->
  py_truediv a (Z.of_nat n) = Ok (Fin (inject_Z a / inject_Z (Z.of_nat n))).
Proof.
  intros Hn. unfold py_truediv.
  destruct (Z.eqb_spec (Z.of_nat n) 0) as [E|_]; [lia | reflexivity].
Qed.

Lemma percent_of_zero (total : nat) : same_float (percent_of 0 total) (Fin 0) = true.
Proof.
  unfold percent_of, fmul, lift2, py_round, same_float.
  rewrite (round_half_even_eq _ 0); [reflexivity|].
  change (inject_Z (Z.of_nat 0)) with 0. unfold Qdiv. ring.
Qed.

(** C2 (amended): on a numeric column the outlier detector always
    returns; on a non-empty one the percentage is the outlier count
    divided by the length of the column, missing cells included, times
    100 and rounded to two decimals; and a column without any non-missing
    value gets count 0 and percentage 0.0. *)
Theorem outlier_percentage (series : Series) :
  is_number series = true ->
  exists r, detect_outliers_iqr series = Ok r /\
    (is_empty series = false ->
       Outliers.percentage r = percent_of (Outliers.count r) (len series)) /\
    (dropna (values series) = [] ->
       Outliers.count r = 0%nat /\ same_float (Outliers.percentage r) (Fin 0) = true).
Proof.
  intros Hnum. unfold detect_outliers_iqr.
  rewrite (is_number_numeric series Hnum). cbn [negb]. rewrite orb_false_r.
  destruct (is_empty series) eqn:Hne.
  { eexists. split; [reflexivity|]. split; [discriminate|]. intros _. split; reflexivity. }
  rewrite !(quantile_number series _ Hnum). cbn [mbind res_bind].
  rewrite py_truediv_ok by (unfold is_empty in Hne; now apply Nat.eqb_neq in Hne).
  cbn [mbind res_bind]. eexists. split; [reflexivity|].
  cbn [Outliers.count Outliers.percentage]. split; [reflexivity|].
  intros Hnone. rewrite Hnone. cbn [sort_values fold_right percentile_linear].
  rewrite filter_outside_nan by reflexivity.
  split; [reflexivity | apply (percent_of_zero (len series))].
Qed.

End EngineFacts.

Section AnalystFacts.

Variable fmt : float -> string.



End AnalystFacts.

Section ProfilerFacts.

Variable fsqrt : Q -> Q.
Variable fmt : float -> string.
Variable memory_usage_sum : DataFrame -> Z.

Lemma detect_outliers_ok (s : Series) :
  is_number s = true -> exists r, detect_outliers_iqr s = Ok r.
Proof.
  intros Hnum. unfold detect_outliers_iqr.
  rewrite (is_number_numeric s Hnum). cbn [negb]. rewrite orb_false_r.
  destruct (is_empty s) eqn:Hne; [eauto|].
  rewrite !(quantile_number s _ Hnum). cbn [mbind res_bind].
  rewrite py_truediv_ok by (unfold is_empty in Hne; now apply Nat.eqb_neq in Hne).
  cbn [mbind res_bind]. eauto.
Qed.

Lemma analyze_variability_ok (s : Series) :
  exists r, analyze_variability fsqrt s = Ok r.
Proof.
  unfold analyze_variability.
  destruct (is_empty s || negb (is_numeric_dtype s)); [eauto|].
  destruct (feqb (mean s) (Fin 0)) eqn:Hm; [eauto|].
  rewrite (fdiv_abs _ _ Hm). cbn [mbind res_bind]. eauto.
Qed.

Lemma column_stats_ok (s : Series) :
  is_number s = true -> exists sd, column_stats fsqrt s = Ok sd.
Proof.
  intros Hnum. unfold column_stats.
  destruct (detect_outliers_ok s Hnum) as [o ->].
  destruct (analyze_variability_ok s) as [v ->].
  cbn [mbind res_bind]. eauto.
Qed.

Lemma filter_label_absent (col : string) (l : list (string * Series)) :
  col ∉ map fst l -> List.filter (fun c => String.eqb (fst c) col) l = [].
Proof.
  induction l as [|[k s] l IH]; [reflexivity|].
  cbn [map fst List.filter]. intros H.
  apply not_elem_of_cons in H as [Hk Hl].
  destruct (String.eqb_spec k col) as [->|_]; [contradiction | auto].
Qed.

Lemma filter_label_unique (col : string) (s : Series) (l : list (string * Series)) :
  NoDup (map fst l) -> (col, s) ∈ l ->
  List.filter (fun c => String.eqb (fst c) col) l = [(col, s)].
Proof.
  induction l as [|[k s'] l IH]; intros Hnd Hin.
  { inversion Hin. }
  cbn [map fst] in Hnd. apply NoDup_cons in Hnd as [Hk Hnd].
  cbn [List.filter fst].
  apply elem_of_cons in Hin as [[= <- <-]|Hin].
  - rewrite String.eqb_refl. now rewrite filter_label_absent.
  - destruct (String.eqb_spec k col) as [->|_]; [|auto].
    exfalso. apply Hk. apply list_elem_of_fmap. now exists (col, s).
Qed.

Lemma getitem_unique (df : DataFrame) (col : string) (s : Series) :
  NoDup (columns df) -> (col, s) ∈ data df -> getitem df col = Ok s.
Proof.
  intros Hnd Hin. unfold getitem.
  now rewrite (filter_label_unique col s (data df) Hnd Hin).
Qed.

Lemma analyze_numeric_column_eq (df : DataFrame) (acc : gmap string ColumnStats.t)
    (col : string) (s : Series) (sd : ColumnStats.t) :
  getitem df col = Ok s -> column_stats fsqrt s = Ok sd ->
  analyze_numeric_column fsqrt df acc col = Ok (<[col := sd]> acc).
Proof.
  unfold analyze_numeric_column, column_stats. intros -> H. cbn [mbind res_bind] in *.
  destruct (detect_outliers_iqr s) as [o|]; [|discriminate]. cbn [mbind res_bind] in *.
  destruct (analyze_variability fsqrt s) as [v|]; [|discriminate].
  cbn [mbind res_bind] in *. now injection H as <-.
Qed.

(** The loop of [run_statistical_analysis] over columns that can be
    fetched and are numbers: every label of the list ends up bound to the
    statistics of its column, the other bindings are left alone. *)
Lemma numeric_loop (df : DataFrame) (l : list (string * Series)) :
  (forall c, c ∈ l -> getitem df (fst c) = Ok (snd c) /\ is_number (snd c) = true) ->
  forall acc, exists m,
    for_each (analyze_numeric_column fsqrt df) (map fst l) acc = Ok m /\
    (forall k, k ∉ map fst l -> m !! k = acc !! k) /\
    (NoDup (map fst l) -> forall k s, (k, s) ∈ l ->
       exists sd, m !! k = Some sd /\ column_stats fsqrt s = Ok sd).
Proof.
  induction l as [|[k0 s0] l IH]; intros Hl acc.
  { exists acc. split; [reflexivity|]. split; [reflexivity|].
    intros _ k s Hin. inversion Hin. }
  destruct (Hl (k0, s0)) as [Hget Hnum]; [left|]. cbn [fst snd] in *.
  destruct (column_stats_ok s0 Hnum) as [sd0 Hsd0].
  destruct (IH (fun c Hc => Hl c (list_elem_of_further _ _ _ Hc)) (<[k0 := sd0]> acc))
    as (m & Hm & Hout & Hin).
  exists m. cbn [map fst for_each].
  rewrite (analyze_numeric_column_eq df acc k0 s0 sd0 Hget Hsd0). cbn [mbind res_bind].
  split; [exact Hm|]. split.
  - intros k Hk. apply not_elem_of_cons in Hk as [Hne Hk].
    rewrite (Hout k Hk). now rewrite lookup_insert_ne.
  - intros Hnd k s Hks. apply NoDup_cons in Hnd as [Hk0 Hnd].
    apply elem_of_cons in Hks as [[= -> ->]|Hks].
    + exists sd0. rewrite (Hout k0 Hk0), lookup_insert_eq. auto.
    + exact (Hin Hnd k s Hks).
Qed.

Lemma NoDup_filter_labels (p : string * Series -> bool) (l : list (string * Series)) :
  NoDup (map fst l) -> NoDup (map fst (List.filter p l)).
Proof.
  induction l as [|c l IH]; [intros; constructor|].
  cbn [map List.filter]. intros [Hc Hnd]%NoDup_cons.
  destruct (p c); [|auto]. cbn [map]. apply NoDup_cons. split; [|auto].
  intros Hin. apply Hc. apply list_elem_of_fmap in Hin as (c' & -> & Hc').
  apply list_elem_of_fmap. exists c'. split; [reflexivity|].
  apply list_elem_of_In. apply list_elem_of_In in Hc'.
  now apply filter_In in Hc'.
Qed.

Lemma label_determines_column (l : list (string * Series)) (k : string) (s s' : Series) :
  NoDup (map fst l) -> (k, s) ∈ l -> (k, s') ∈ l -> s = s'.
Proof.
  induction l as [|[k0 s0] l IH]; intros Hnd H H'; [inversion H|].
  cbn [map fst] in Hnd. apply NoDup_cons in Hnd as [Hk0 Hnd].
  assert (forall t, (k0, t) ∈ l -> False) as Hfresh.
  { intros t Ht. apply Hk0. apply list_elem_of_fmap. now exists (k0, t). }
  apply elem_of_cons in H as [H|H]; apply elem_of_cons in H' as [H'|H'].
  - congruence.
  - injection H as -> ->. exfalso. eauto.
  - injection H' as -> ->. exfalso. eauto.
  - now apply IH.
Qed.

(** The result of the statistical engine on a table with distinct labels. *)
Lemma run_statistical_analysis_ok (df : DataFrame) :
  NoDup (columns df) ->
  exists stats, run_statistical_analysis fsqrt df = Ok stats /\
    StatsProfile.correlations stats = compute_correlations fsqrt df /\
    forall col s, (col, s) ∈ data df ->
      if is_number s
      then exists sd, StatsProfile.numeric_columns stats !! col = Some sd /\
                      column_stats fsqrt s = Ok sd
      else StatsProfile.numeric_columns stats !! col = None.
Proof.
  intros Hnd. unfold run_statistical_analysis.
  set (l := List.filter (fun c => is_number (snd c)) (data df)).
  assert (forall c, c ∈ l <-> c ∈ data df /\ is_number (snd c) = true) as Hl.
  { intros c. subst l. rewrite !list_elem_of_In. apply filter_In. }
  destruct (numeric_loop df l) with (acc := (∅ : gmap string ColumnStats.t))
    as (m & Hm & Hout & Hin).
  { intros [k s] [Hks Hnum]%Hl. split; [|exact Hnum]. now apply getitem_unique. }
  change (columns (select_dtypes_number df)) with (map fst l).
  rewrite Hm. cbn [mbind res_bind]. eexists. split; [reflexivity|].
  cbn [StatsProfile.correlations StatsProfile.numeric_columns].
  split; [reflexivity|]. intros col s Hcs.
  destruct (is_number s) eqn:Hnum.
  - apply (Hin (NoDup_filter_labels _ _ Hnd)). apply Hl. auto.
  - rewrite Hout; [apply lookup_empty|].
    intros Hk. apply list_elem_of_fmap in Hk as ([k s'] & -> & [Hks' Hnum']%Hl).
    cbn [fst snd] in *.
    rewrite (label_determines_column _ _ _ _ Hnd Hcs Hks') in Hnum. congruence.
Qed.

Lemma profile_column_eq (df : DataFrame) (stats : StatsProfile.t)
    (acc : list ColumnProfile.t * list string) (col : string) (s : Series) :
  getitem df col = Ok s ->
  profile_column fmt df stats acc col
  = Ok (fst acc ++ [column_profile col s (StatsProfile.numeric_columns stats !! col)],
        snd acc ++ column_alerts fmt col s (StatsProfile.numeric_columns stats !! col)).
Proof.
  intros Hget. unfold profile_column, column_profile, column_alerts, diagnostic_alerts.
  rewrite Hget. cbn [mbind res_bind].
  destruct (is_numeric_dtype s); [|now rewrite app_nil_r].
  unfold dict_contains, dict_getitem.
  destruct (StatsProfile.numeric_columns stats !! col) as [sd|] eqn:Hsd.
  - rewrite bool_decide_eq_true_2 by eauto. cbn [mbind res_bind].
    destruct (fgtb _ _); destruct (str_contains _ _);
      cbn [app]; rewrite <- ?app_assoc, ?app_nil_r; reflexivity.
  - rewrite bool_decide_eq_false_2 by (intros [? [=]]). now rewrite app_nil_r.
Qed.

Lemma profile_loop (df : DataFrame) (stats : StatsProfile.t) (l : list (string * Series)) :
  (forall c, c ∈ l -> getitem df (fst c) = Ok (snd c)) ->
  forall acc,
    for_each (profile_column fmt df stats) (map fst l) acc
    = Ok (fst acc
            ++ map (fun c => column_profile (fst c) (snd c)
                               (StatsProfile.numeric_columns stats !! fst c)) l,
          snd acc
            ++ flat_map (fun c => column_alerts fmt (fst c) (snd c)
                                    (StatsProfile.numeric_columns stats !! fst c)) l).
Proof.
  induction l as [|c l IH]; intros Hl acc.
  { cbn. rewrite !app_nil_r. now destruct acc. }
  cbn [map for_each flat_map].
  rewrite (profile_column_eq df stats acc (fst c) (snd c)) by (apply Hl; left).
  cbn [mbind res_bind]. rewrite IH by (intros; apply Hl; now right).
  cbn [fst snd]. now rewrite <- !app_assoc.
Qed.

Lemma build_report_eq (df : DataFrame) (filename : string) (stats : StatsProfile.t) :
  NoDup (columns df) ->
  build_report fmt memory_usage_sum df filename stats
  = Ok (ProfileReport.mk filename (dataset_summary memory_usage_sum df)
          (map (fun c => column_profile (fst c) (snd c)
                           (StatsProfile.numeric_columns stats !! fst c)) (data df))
          (flat_map (fun c => column_alerts fmt (fst c) (snd c)
                                (StatsProfile.numeric_columns stats !! fst c)) (data df)
             ++ map (correlation_alert fmt) (StatsProfile.correlations stats))
          None).
Proof.
  intros Hnd. unfold build_report, columns.
  rewrite (profile_loop df stats (data df)).
  - reflexivity.
  - intros [k s] Hks. now apply getitem_unique.
Qed.

Lemma flat_map_agree {A B : Type} (f g : A -> list B) (l : list A) :
  (forall a, a ∈ l -> f a = g a) -> flat_map f l = flat_map g l.
Proof.
  induction l as [|a l IH]; intros H; [reflexivity|].
  cbn [flat_map]. rewrite (H a) by left. rewrite IH; [reflexivity|].
  intros; apply H; now right.
Qed.

Lemma column_alerts_of_column (col : string) (s : Series) (d : option ColumnStats.t) :
  (if is_number s
   then exists sd, d = Some sd /\ column_stats fsqrt s = Ok sd
   else d = None) ->
  column_alerts fmt col s d = alerts_of_column fsqrt fmt (col, s).
Proof.
  unfold column_alerts, alerts_of_column. cbn [fst snd].
  destruct (is_number s) eqn:Hnum.
  - intros (sd & -> & ->). now rewrite (is_number_numeric s Hnum).
  - intros ->. now destruct (is_numeric_dtype s).
Qed.

(** What [analyze_dataset] returns on a table whose labels are distinct. *)
Lemma analyze_dataset_eq (df : DataFrame) (filename : string) :
  NoDup (columns df) ->
  exists stats,
    run_statistical_analysis fsqrt df = Ok stats /\
    StatsProfile.correlations stats = compute_correlations fsqrt df /\
    (forall col s, (col, s) ∈ data df ->
       if is_number s
       then exists sd, StatsProfile.numeric_columns stats !! col = Some sd /\
                       column_stats fsqrt s = Ok sd
       else StatsProfile.numeric_columns stats !! col = None) /\
    analyze_dataset fsqrt fmt memory_usage_sum df filename
    = Ok (ProfileReport.mk filename (dataset_summary memory_usage_sum df)
            (map (fun c => column_profile (fst c) (snd c)
                             (StatsProfile.numeric_columns stats !! fst c)) (data df))
            (alerts_in_order fsqrt fmt (correlation_alert fmt) df)
            None).
Proof.
  intros Hnd. destruct (run_statistical_analysis_ok df Hnd) as (stats & Hrun & Hcorr & Hcols).
  exists stats. split; [exact Hrun|]. split; [exact Hcorr|]. split; [exact Hcols|].
  unfold analyze_dataset. rewrite Hrun. cbn [mbind res_bind].
  rewrite (build_report_eq df filename stats Hnd). unfold alerts_in_order.
  rewrite Hcorr. do 3 f_equal. apply flat_map_agree. intros [col s] Hcs.
  apply column_alerts_of_column. exact (Hcols col s Hcs).
Qed.

Lemma column_profile_basics (col : string) (s : Series) (d : option ColumnStats.t) :
  let cp := column_profile col s d in
  ColumnProfile.name cp = col /\ ColumnProfile.dtype cp = dtype s /\
  ColumnProfile.missing_count cp = isnull_sum s /\
  ColumnProfile.unique_count cp = nunique s.
Proof.
  unfold column_profile. destruct (is_numeric_dtype s); [destruct d|]; cbn; auto.
Qed.

Lemma column_profile_degraded (col : string) (s : Series) :
  let cp := column_profile col s None in
  ColumnProfile.outliers_count cp = Some 0%nat /\
  ColumnProfile.skewness cp = None /\ ColumnProfile.variability_cv cp = None /\
  (is_numeric_dtype s = false ->
   ColumnProfile.mean cp = None /\ ColumnProfile.min cp = None /\
   ColumnProfile.max cp = None).
Proof.
  unfold column_profile. destruct (is_numeric_dtype s); cbn; repeat split; congruence.
Qed.

(** C8: the report of a well-formed table lists exactly one column
    profile per column of the table, in the order of the table: the
    profile at position [i] carries the label, the type and the counts of
    the column at position [i]. *)
Theorem one_profile_per_column (df : DataFrame) (filename : string) :
  well_formed df ->
  exists rep,
    analyze_dataset fsqrt fmt memory_usage_sum df filename = Ok rep /\
    length (ProfileReport.columns rep) = length (data df) /\
    map ColumnProfile.name (ProfileReport.columns rep) = columns df /\
    forall i col s, data df !! i = Some (col, s) ->
      exists cp, ProfileReport.columns rep !! i = Some cp /\
        ColumnProfile.name cp = col /\ ColumnProfile.dtype cp = dtype s /\
        ColumnProfile.missing_count cp = isnull_sum s /\
        ColumnProfile.unique_count cp = nunique s.
Proof.
  intros [Hnd _]. destruct (analyze_dataset_eq df filename Hnd) as (stats & _ & _ & _ & ->).
  eexists. split; [reflexivity|]. cbn [ProfileReport.columns].
  split; [apply length_map|]. split.
  - unfold columns. rewrite map_map. apply map_ext. intros [col s].
    apply column_profile_basics.
  - intros i col s Hi. eexists. split.
    + rewrite list_lookup_fmap, Hi. reflexivity.
    + apply column_profile_basics.
Qed.

(** C9 (amended): the alerts of a well-formed table are, in this order,
    the alerts of its columns in table order - for a numeric column the
    outlier alert when the outlier percentage exceeds 5.0, then the
    volatility alert when the volatility label contains "High"; nothing
    for another column - followed by one alert per correlation finding
    in the order of detection, each reading
    "Strong Correlation (<r>) between '<A>' and '<B>'. Check for multicollinearity.". *)
Theorem alerts_order (df : DataFrame) (filename : string) :
  well_formed df ->
  exists rep,
    analyze_dataset fsqrt fmt memory_usage_sum df filename = Ok rep /\
    ProfileReport.alerts rep
    = flat_map (alerts_of_column fsqrt fmt) (data df)
        ++ map (correlation_alert fmt) (compute_correlations fsqrt df) /\
    (forall col s, (col, s) ∈ data df ->
       if is_number s
       then exists sd, column_stats fsqrt s = Ok sd /\
              alerts_of_column fsqrt fmt (col, s)
              = (if fgtb (Outliers.percentage (ColumnStats.outliers sd)) (Fin 5)
                 then [outlier_alert fmt col (Outliers.percentage (ColumnStats.outliers sd))]
                 else [])
                ++ (if str_contains "High"
                         (Variability.classification (ColumnStats.variability sd))
                    then [volatility_alert col]
                    else [])
       else alerts_of_column fsqrt fmt (col, s) = []) /\
    (forall c, correlation_alert fmt c
       = ("Strong Correlation (" ++ fmt (Correlation.correlation c) ++ ") between '"
            ++ Correlation.col_1 c ++ "' and '" ++ Correlation.col_2 c
            ++ "'. Check for multicollinearity.")%string).
Proof.
  intros [Hnd _].
  destruct (analyze_dataset_eq df filename Hnd) as (stats & _ & _ & Hcols & ->).
  eexists. split; [reflexivity|]. split; [reflexivity|]. split; [|reflexivity].
  intros col s Hcs. pose proof (Hcols col s Hcs) as Hd.
  unfold alerts_of_column. cbn [fst snd]. destruct (is_number s); [|reflexivity].
  destruct Hd as (sd & _ & Hsd). exists sd. rewrite Hsd. split; reflexivity.
Qed.

Lemma same_labels_column (col : string) (s : Series) (a b : option ColumnStats.t) :
  option_Forall2 same_labels_entry a b ->
  column_profile col s a = column_profile col s b /\
  column_alerts fmt col s a = column_alerts fmt col s b.
Proof.
  intros [x y (Ho & Hs & Hv)|]; [|split; reflexivity].
  unfold column_profile, column_alerts, diagnostic_alerts.
  rewrite Ho, Hs, Hv. split; reflexivity.
Qed.

(** C10: in the report of a well-formed table the [skewness] and
    [variability_cv] fields of a numeric column hold the labels chosen
    by the shape and volatility classifiers; and the report is the same
    for any engine result that differs only in the numbers behind these
    labels (skewness value, standard deviation, coefficient of
    variation), so none of these numbers reaches the report. *)
Theorem labels_not_numbers (df : DataFrame) (filename : string) :
  well_formed df ->
  exists stats rep,
    run_statistical_analysis fsqrt df = Ok stats /\
    analyze_dataset fsqrt fmt memory_usage_sum df filename = Ok rep /\
    (forall i col s, data df !! i = Some (col, s) -> is_number s = true ->
       exists cp v, ProfileReport.columns rep !! i = Some cp /\
         analyze_variability fsqrt s = Ok v /\
         ColumnProfile.skewness cp
         = Some (Skewness.classification (analyze_skewness fsqrt s)) /\
         ColumnProfile.variability_cv cp = Some (Variability.classification v)) /\
    (forall stats', same_labels stats stats' ->
       build_report fmt memory_usage_sum df filename stats' = Ok rep).
Proof.
  intros [Hnd _].
  destruct (analyze_dataset_eq df filename Hnd) as (stats & Hrun & Hcorr & Hcols & Hrep).
  exists stats. eexists. split; [exact Hrun|]. split; [exact Hrep|]. split.
  - intros i col s Hi Hnum. cbn [ProfileReport.columns].
    pose proof (Hcols col s (list_elem_of_lookup_2 _ _ _ Hi)) as Hd.
    rewrite Hnum in Hd. destruct Hd as (sd & Hsd & Hstats).
    unfold column_stats in Hstats.
    destruct (detect_outliers_iqr s) as [o|]; [|discriminate].
    destruct (analyze_variability fsqrt s) as [v|]; [|discriminate].
    cbn [mbind res_bind] in Hstats. injection Hstats as <-.
    eexists. exists v. split; [rewrite list_lookup_fmap, Hi; reflexivity|].
    split; [reflexivity|]. cbn [fst snd]. rewrite Hsd.
    unfold column_profile. rewrite (is_number_numeric s Hnum). split; reflexivity.
  - intros stats' [Hc Hl]. rewrite (build_report_eq df filename stats' Hnd).
    unfold alerts_in_order. rewrite <- Hc, Hcorr. do 2 f_equal.
    + apply map_ext_in. intros [col s] _. symmetry. apply same_labels_column, Hl.
    + f_equal. apply flat_map_agree. intros [col s] Hcs. cbn [fst snd].
      rewrite <- (proj2 (same_labels_column col s _ _ (Hl col))).
      apply column_alerts_of_column. exact (Hcols col s Hcs).
Qed.

End ProfilerFacts.

Section CorrelationFacts.

Variable fsqrt : Q -> Q.

Lemma lower_triangle_spec (n i j : nat) :
  (i, j) ∈ lower_triangle n <-> (j < i < n)%nat.
Proof.
  unfold lower_triangle. rewrite list_elem_of_In, in_flat_map. split.
  - intros (i' & Hi' & Hin). apply in_map_iff in Hin as (j' & [= <- <-] & Hj').
    apply in_seq in Hi'. apply in_seq in Hj'. lia.
  - intros H. exists i. split; [apply in_seq; lia|].
    apply in_map_iff. exists j. split; [reflexivity | apply in_seq; lia].
Qed.

Lemma NoDup_lower_triangle (n : nat) : NoDup (lower_triangle n).
Proof.
  unfold lower_triangle. induction n as [|n IH]; [constructor|].
  rewrite seq_S, flat_map_app. cbn [flat_map]. rewrite app_nil_r.
  apply NoDup_app. split; [exact IH|]. split.
  - intros [i j] Hin Hin'. apply lower_triangle_spec in Hin.
    apply list_elem_of_In, in_map_iff in Hin' as (j' & [= <- <-] & _). cbn in Hin. lia.
  - apply NoDup_fmap_2; [intros ? ? [=]; auto|]. apply NoDup_ListNoDup, seq_NoDup.
Qed.

Lemma flat_map_step {A B : Type} (f : A -> list B) (x : A) (l : list A) :
  flat_map f (x :: l) = f x ++ flat_map f l.
Proof. reflexivity. Qed.

Lemma loops_omap {B : Type} (body : nat -> nat -> list B) (f : nat * nat -> option B) :
  (forall i j, body i j = option_list (f (i, j))) ->
  forall l,
    flat_map (fun i => flat_map (fun j => body i j) (seq 0 i)) l
    = omap f (flat_map (fun i => map (fun j => (i, j)) (seq 0 i)) l).
Proof.
  intros Hbody. induction l as [|i l IH]; [reflexivity|].
  rewrite !flat_map_step, omap_app, IH. f_equal.
  induction (seq 0 i) as [|j js IHj]; [reflexivity|].
  rewrite flat_map_step, IHj, Hbody.
  change (map (fun j => (i, j)) (j :: js)) with ((i, j) :: map (fun j => (i, j)) js).
  cbn [omap list_omap]. destruct (f (i, j)); reflexivity.
Qed.

Lemma compute_correlations_eq (df : DataFrame) :
  compute_correlations fsqrt df
  = omap (finding fsqrt (data (select_dtypes_number df)))
         (lower_triangle (length (data (select_dtypes_number df)))).
Proof.
  unfold compute_correlations, shape, columns. cbn [snd].
  set (numeric := data (select_dtypes_number df)). rewrite length_map.
  destruct (Nat.ltb_spec (length numeric) 2) as [Hlt|_].
  { unfold lower_triangle.
    destruct (length numeric) as [|[|n]]; [reflexivity | reflexivity | lia]. }
  unfold lower_triangle. apply loops_omap. intros i j.
  unfold finding, corr. cbn [fst snd]. fold numeric. rewrite !list_lookup_fmap.
  destruct (numeric !! i) as [c1|]; [|reflexivity].
  destruct (numeric !! j) as [c2|]; [|reflexivity].
  cbn [fmap option_fmap option_map].
  destruct (fgtb (fabs (pearson fsqrt (values (snd c1)) (values (snd c2)))) (Fin (7 # 10)));
    reflexivity.
Qed.

Lemma NoDup_omap_keys {A B K : Type} (f : A -> option B) (g : B -> K) (l : list A) :
  NoDup l ->
  (forall x1 x2 y1 y2, x1 ∈ l -> x2 ∈ l -> f x1 = Some y1 -> f x2 = Some y2 ->
     g y1 = g y2 -> x1 = x2) ->
  NoDup (map g (omap f l)).
Proof.
  induction l as [|x l IH]; intros Hnd Hinj; [constructor|].
  apply NoDup_cons in Hnd as [Hx Hnd].
  assert (NoDup (map g (omap f l))) as IH'.
  { apply IH; [exact Hnd|]. intros x1 x2 y1 y2 H1 H2. apply Hinj; now right. }
  cbn [omap list_omap]. destruct (f x) as [y|] eqn:Hfx; [|exact IH'].
  cbn [map]. apply NoDup_cons. split; [|exact IH'].
  intros Hin. apply list_elem_of_fmap in Hin as (y' & Hg & Hy').
  apply list_elem_of_omap in Hy' as (x' & Hx' & Hfx').
  apply Hx. rewrite (Hinj x x' y y'); auto; [left | now right].
Qed.

Lemma finding_labels (numeric : list (string * Series)) (p : nat * nat) (f : Correlation.t) :
  finding fsqrt numeric p = Some f ->
  map fst numeric !! fst p = Some (Correlation.col_1 f) /\
  map fst numeric !! snd p = Some (Correlation.col_2 f).
Proof.
  unfold finding. rewrite !list_lookup_fmap.
  destruct (numeric !! fst p) as [c1|]; [|discriminate].
  destruct (numeric !! snd p) as [c2|]; [|discriminate].
  cbn zeta.
  destruct (fgtb (fabs (pearson fsqrt (values (snd c1)) (values (snd c2)))) (Fin (7 # 10)));
    [|discriminate].
  intros [= <-]. split; reflexivity.
Qed.

(** C4: on a table with distinct labels the correlation detector
    returns nothing when fewer than two numeric columns exist; a finding
    is returned exactly for the pairs of numeric columns at positions
    [j < i] whose coefficient [r] has [|r| > 0.7], and it carries the two
    labels, [r] rounded to two decimals and the strength "Very Strong"
    when [|r| > 0.9], "Strong" otherwise; no finding pairs a column with
    itself, and no two findings name the same unordered pair. *)
Theorem correlation_findings (df : DataFrame) :
  NoDup (columns df) ->
  let numeric := data (select_dtypes_number df) in
  let found := compute_correlations fsqrt df in
  ((length numeric < 2)%nat -> found = []) /\
  (forall f, f ∈ found <->
     exists i j c1 c2, (j < i)%nat /\ numeric !! i = Some c1 /\ numeric !! j = Some c2 /\
       let r := pearson fsqrt (values (snd c1)) (values (snd c2)) in
       fgtb (fabs r) (Fin (7 # 10)) = true /\
       f = Correlation.mk (fst c1) (fst c2) (py_round r 2)
             (if fgtb (fabs r) (Fin (9 # 10)) then "Very Strong" else "Strong")) /\
  (forall f, f ∈ found -> Correlation.col_1 f <> Correlation.col_2 f) /\
  (forall k1 k2 f1 f2, found !! k1 = Some f1 -> found !! k2 = Some f2 -> k1 <> k2 ->
     ~ (Correlation.col_1 f1 = Correlation.col_1 f2 /\
        Correlation.col_2 f1 = Correlation.col_2 f2) /\
     ~ (Correlation.col_1 f1 = Correlation.col_2 f2 /\
        Correlation.col_2 f1 = Correlation.col_1 f2)).
Proof.
  intros Hnd numeric found.
  assert (NoDup (map fst numeric)) as Hnum by (apply NoDup_filter_labels, Hnd).
  assert (found = omap (finding fsqrt numeric) (lower_triangle (length numeric))) as Hfound
    by apply compute_correlations_eq.
  assert (forall f, f ∈ found -> exists i j, (j < i)%nat /\
            map fst numeric !! i = Some (Correlation.col_1 f) /\
            map fst numeric !! j = Some (Correlation.col_2 f)) as Hpos.
  { intros f Hf. rewrite Hfound in Hf.
    apply list_elem_of_omap in Hf as ([i j] & Hij & Hfind).
    apply lower_triangle_spec in Hij. apply finding_labels in Hfind.
    exists i, j. split; [lia | exact Hfind]. }
  assert (NoDup (map (fun f => (Correlation.col_1 f, Correlation.col_2 f)) found)) as Hkeys.
  { rewrite Hfound. apply NoDup_omap_keys; [apply NoDup_lower_triangle|].
    intros [i1 j1] [i2 j2] y1 y2 _ _ [H11 H12]%finding_labels [H21 H22]%finding_labels [= E1 E2].
    cbn [fst snd] in *. rewrite E1 in H11. rewrite E2 in H12.
    f_equal; eapply NoDup_lookup; eauto. }
  split; [|split; [|split]].
  - intros Hlt. rewrite Hfound. unfold lower_triangle.
    destruct (length numeric) as [|[|n]]; [reflexivity | reflexivity | lia].
  - intros f. rewrite Hfound, list_elem_of_omap. split.
    + intros ([i j] & Hij & Hfind). apply lower_triangle_spec in Hij.
      unfold finding in Hfind. cbn [fst snd] in Hfind.
      destruct (numeric !! i) as [c1|] eqn:Hi; [|discriminate].
      destruct (numeric !! j) as [c2|] eqn:Hj; [|discriminate].
      cbn zeta in Hfind. destruct (fgtb _ (Fin (7 # 10))) eqn:Hs; [|discriminate].
      injection Hfind as <-. exists i, j, c1, c2. repeat split; try lia; assumption.
    + intros (i & j & c1 & c2 & Hji & Hi & Hj & Hs & ->). exists (i, j). split.
      * apply lower_triangle_spec. split; [lia|]. now apply lookup_lt_Some in Hi.
      * unfold finding. cbn [fst snd]. rewrite Hi, Hj. cbn zeta. now rewrite Hs.
  - intros f Hf E. destruct (Hpos f Hf) as (i & j & Hji & Hi & Hj).
    rewrite E in Hi. pose proof (NoDup_lookup _ _ _ _ Hnum Hi Hj). lia.
  - intros k1 k2 f1 f2 H1 H2 Hk. split.
    + intros [E1 E2]. apply Hk.
      apply (NoDup_lookup _ k1 k2 (Correlation.col_1 f1, Correlation.col_2 f1) Hkeys);
        rewrite list_lookup_fmap; [rewrite H1 | rewrite H2]; cbn; congruence.
    + intros [E1 E2].
      destruct (Hpos f1 (list_elem_of_lookup_2 _ _ _ H1)) as (i1 & j1 & L1 & Hi1 & Hj1).
      destruct (Hpos f2 (list_elem_of_lookup_2 _ _ _ H2)) as (i2 & j2 & L2 & Hi2 & Hj2).
      rewrite E1 in Hi1. rewrite E2 in Hj1.
      pose proof (NoDup_lookup _ _ _ _ Hnum Hi1 Hj2).
      pose proof (NoDup_lookup _ _ _ _ Hnum Hj1 Hi2). lia.
Qed.

End CorrelationFacts.

(** * The facts at work on the example data *)

Lemma sample_table_well_formed : well_formed sample_table.
Proof.
  split.
  - cbn. repeat (apply NoDup_cons_2; [rewrite ?elem_of_cons, elem_of_nil; intuition discriminate|]).
    constructor.
  - repeat constructor.
Defined.

Lemma outlier_percentage_witness :
  is_number scenario_A = true /\
  exists r, detect_outliers_iqr scenario_A = Ok r /\
    (is_empty scenario_A = false ->
       Outliers.percentage r = percent_of (Outliers.count r) (len scenario_A)) /\
    (dropna (values scenario_A) = [] ->
       Outliers.count r = 0%nat /\ same_float (Outliers.percentage r) (Fin 0) = true).
Proof.
  split; [reflexivity|]. apply (outlier_percentage scenario_A). reflexivity.
Defined.

(** The detector divides by the length of the column, not by the number
    of non-missing values: on [1, 2, 3, 4, 100, NaN] one outlier in six
    cells gives 16.67, where one in five non-missing values is 20.0. *)
Lemma outlier_percentage_counterexample :
  exists r, detect_outliers_iqr with_missing = Ok r /\
    Outliers.count r = 1%nat /\
    Outliers.percentage r = Fin (1667 # 100) /\
    spec_outlier_percentage with_missing (Outliers.count r) = Fin (2000 # 100) /\
    same_float (Outliers.percentage r)
      (spec_outlier_percentage with_missing (Outliers.count r)) = false.
Proof.
  eexists. split; [vm_compute; reflexivity|]. repeat split.
Defined.


Lemma correlation_findings_witness :
  NoDup (columns sample_table) /\
  compute_correlations Qsqrt sample_table
  = [Correlation.mk "b" "a" (Fin (100 # 100)) "Very Strong"] /\
  forall f, f ∈ compute_correlations Qsqrt sample_table ->
    Correlation.col_1 f <> Correlation.col_2 f.
Proof.
  split; [exact (proj1 sample_table_well_formed)|].
  split; [vm_compute; reflexivity|].
  exact (proj1 (proj2 (proj2 (correlation_findings Qsqrt sample_table
                                 (proj1 sample_table_well_formed))))).
Defined.

Lemma skewness_buckets_witness :
  skew Qsqrt scenario_A = Fin (skew_value scenario_A) /\
  1 < skew_value scenario_A /\
  Skewness.classification (analyze_skewness Qsqrt scenario_A)
  = "Highly Right-Skewed (Long Tail)".
Proof.
  assert (skew Qsqrt scenario_A = Fin (skew_value scenario_A)) as H
    by (vm_compute; reflexivity).
  assert (1 < skew_value scenario_A) as Hgt by (vm_compute; reflexivity).
  split; [exact H|]. split; [exact Hgt|].
  exact (proj2 (proj1 (proj2 (skewness_buckets Qsqrt scenario_A _ H))) Hgt).
Defined.

(** A skewness above 1 is labelled "Highly Right-Skewed (Long Tail)",
    which is not the label "Highly Right-Skewed" of the specification. *)
Lemma skewness_buckets_counterexample :
  1 < skew_value scenario_A /\
  spec_skew_label (skew_value scenario_A) = "Highly Right-Skewed" /\
  Skewness.classification (analyze_skewness Qsqrt scenario_A)
  <> spec_skew_label (skew_value scenario_A).
Proof.
  split; [vm_compute; reflexivity|]. split; [vm_compute; reflexivity|].
  vm_compute. discriminate.
Defined.

Lemma skewness_undefined_witness :
  isna (skew Qsqrt two_values) = true /\
  analyze_skewness Qsqrt two_values = Skewness.mk None "Unknown".
Proof.
  split; [reflexivity|].
  apply (proj1 (skewness_undefined Qsqrt) two_values). reflexivity.
Defined.

(** The constant column [5,5,5,5] has skewness 0.0, not NaN: it is
    classified "Symmetric", not "Unknown". *)
Lemma skewness_undefined_counterexample :
  skew Qsqrt scenario_B = Fin 0 /\
  Skewness.classification (analyze_skewness Qsqrt scenario_B) = "Symmetric" /\
  analyze_skewness Qsqrt scenario_B <> Skewness.mk None "Unknown".
Proof.
  split; [reflexivity|]. split; [reflexivity|]. vm_compute. discriminate.
Defined.

Lemma variability_classes_witness :
  is_empty scenario_B = false /\ is_numeric_dtype scenario_B = true /\
  exists r, analyze_variability Qsqrt scenario_B = Ok r /\
    Variability.classification r = "Low Variability (Stable)".
Proof.
  split; [reflexivity|]. split; [reflexivity|].
  destruct (variability_classes Qsqrt scenario_B eq_refl eq_refl)
    as (r & Hr & _ & _ & _ & Hcv).
  exists r. split; [exact Hr|].
  destruct Hcv as (_ & Hlow & _).
  - intros (m & Hm & Hz). vm_compute in Hm. injection Hm as <-. vm_compute in Hz. discriminate.
  - apply Hlow. vm_compute. reflexivity.
Defined.

(** A numeric column without rows is answered by the guard: the label is
    "Unknown" and the CV is null although the mean is NaN, not 0. *)
Lemma variability_classes_counterexample :
  is_numeric_dtype no_rows = true /\
  mean no_rows = NaN /\
  analyze_variability Qsqrt no_rows = Ok (Variability.mk None None "Unknown").
Proof. repeat split. Defined.

Lemma one_profile_per_column_witness :
  well_formed sample_table /\
  exists rep,
    analyze_dataset Qsqrt float_repr flat_memory_usage sample_table "data.csv" = Ok rep /\
    length (ProfileReport.columns rep) = 4%nat /\
    map ColumnProfile.name (ProfileReport.columns rep) = ["a"; "b"; "c"; "d"].
Proof.
  split; [exact sample_table_well_formed|].
  destruct (one_profile_per_column Qsqrt float_repr flat_memory_usage sample_table
              "data.csv" sample_table_well_formed) as (rep & Hrep & Hlen & Hnames & _).
  exists rep. split; [exact Hrep|]. split; [exact Hlen | exact Hnames].
Defined.

Lemma alerts_order_witness :
  well_formed sample_table /\
  exists rep,
    analyze_dataset Qsqrt float_repr flat_memory_usage sample_table "data.csv" = Ok rep /\
    ProfileReport.alerts rep
    = ["Column 'a' has 20.0% outliers.";
       "Column 'a' is highly volatile (High Variability).";
       "Strong Correlation (1.0) between 'b' and 'a'. Check for multicollinearity."].
Proof.
  split; [exact sample_table_well_formed|].
  destruct (alerts_order Qsqrt float_repr flat_memory_usage sample_table
              "data.csv" sample_table_well_formed) as (rep & Hrep & Halerts & _).
  exists rep. split; [exact Hrep|]. rewrite Halerts. vm_compute. reflexivity.
Defined.

(** The correlation alert ends with ". Check for multicollinearity.",
    which the wording of the specification leaves out. *)
Lemma alerts_order_counterexample :
  exists rep,
    analyze_dataset Qsqrt float_repr flat_memory_usage sample_table "data.csv" = Ok rep /\
    alerts_in_order Qsqrt float_repr (spec_correlation_alert float_repr) sample_table
    = ["Column 'a' has 20.0% outliers.";
       "Column 'a' is highly volatile (High Variability).";
       "Strong Correlation (1.0) between 'b' and 'a'"] /\
    ProfileReport.alerts rep
    <> alerts_in_order Qsqrt float_repr (spec_correlation_alert float_repr) sample_table.
Proof.
  eexists. split; [vm_compute; reflexivity|]. split; [vm_compute; reflexivity|].
  vm_compute. discriminate.
Defined.

Lemma labels_not_numbers_witness :
  well_formed sample_table /\
  exists rep,
    analyze_dataset Qsqrt float_repr flat_memory_usage sample_table "data.csv" = Ok rep /\
    map ColumnProfile.skewness (ProfileReport.columns rep)
    = [Some "Highly Right-Skewed (Long Tail)"; Some "Symmetric"; None; None] /\
    map ColumnProfile.variability_cv (ProfileReport.columns rep)
    = [Some "High Variability (Volatile)"; Some "Moderate Variability"; None; None].
Proof.
  split; [exact sample_table_well_formed|].
  destruct (labels_not_numbers Qsqrt float_repr flat_memory_usage sample_table
              "data.csv" sample_table_well_formed) as (stats & rep & _ & Hrep & _).
  exists rep. split; [exact Hrep|].
  vm_compute in Hrep. injection Hrep as <-. split; reflexivity.
Defined.

(** * Further facts about the statistical engine *)

Lemma Qfloor_between (q : Q) :
  inject_Z (Qfloor q) <= q /\ q < inject_Z (Qfloor q) + 1.
Proof.
  split; [apply Qfloor_le|].
  pose proof (Qlt_floor q) as H. rewrite inject_Z_plus in H. exact H.
Qed.

Lemma round_half_even_bounds (q : Q) (a b : Z) :
  inject_Z a <= q -> q <= inject_Z b -> (a <= round_half_even q <= b)%Z.
Proof.
  intros Ha Hb. unfold round_half_even.
  destruct (Qfloor_between q) as [Hlo Hhi].
  assert (a <= Qfloor q)%Z as Hfa.
  { rewrite <- (Qfloor_Z a). now apply Qfloor_resp_le. }
  assert (Qfloor q <= b)%Z as Hfb.
  { rewrite <- (Qfloor_Z b). now apply Qfloor_resp_le. }
  assert (Qfloor q = b -> Qcompare (q - inject_Z (Qfloor q)) (1 # 2) = Lt) as Htop.
  { intros E. apply (proj1 (Qlt_alt _ _)). rewrite E. lra. }
  destruct (Z.eq_dec (Qfloor q) b) as [E|E].
  - rewrite (Htop E). lia.
  - destruct (Qcompare _ _); [destruct (Z.even _)| |]; lia.
Qed.

Lemma py_round_bounds (q : Q) (a b : Z) (ndigits : nat) :
  inject_Z a <= q -> q <= inject_Z b ->
  exists p, py_round (Fin q) ndigits = Fin p /\ inject_Z a <= p /\ p <= inject_Z b.
Proof.
  intros Ha Hb. unfold py_round. eexists. split; [reflexivity|].
  set (k := pow10 ndigits).
  assert (0 < inject_Z (Zpos k)) as Hk by (change 0 with (inject_Z 0); rewrite <- Zlt_Qlt; lia).
  destruct (round_half_even_bounds (q * (Zpos k # 1)) (a * Zpos k) (b * Zpos k)) as [Hl Hu].
  - rewrite inject_Z_mult. change (Zpos k # 1) with (inject_Z (Zpos k)).
    now apply Qmult_le_compat_r; [|apply Qlt_le_weak].
  - rewrite inject_Z_mult. change (Zpos k # 1) with (inject_Z (Zpos k)).
    now apply Qmult_le_compat_r; [|apply Qlt_le_weak].
  - unfold Qle, inject_Z. cbn [Qnum Qden]. lia.
Qed.

Lemma filter_length_le {A : Type} (p : A -> bool) (l : list A) :
  (length (List.filter p l) <= length l)%nat.
Proof. induction l as [|x l IH]; cbn; [lia|]. destruct (p x); cbn; lia. Qed.

Lemma len_values (s : Series) : length (values s) = len s.
Proof. destruct s; cbn; now rewrite ?length_map. Qed.

Lemma percent_of_bounds (count total : nat) :
  (count <= total)%nat -> (total <> 0)%nat ->
  exists p, percent_of count total = Fin p /\ 0 <= p /\ p <= 100.
Proof.
  intros Hle Hpos. unfold percent_of, fmul, lift2.
  assert (0 < inject_Z (Z.of_nat total)) as Ht
    by (change 0 with (inject_Z 0); rewrite <- Zlt_Qlt; lia).
  assert (0 <= inject_Z (Z.of_nat count)) as Hc
    by (change 0 with (inject_Z 0); rewrite <- Zle_Qle; lia).
  assert (inject_Z (Z.of_nat count) <= inject_Z (Z.of_nat total)) as Hct
    by (rewrite <- Zle_Qle; lia).
  apply (py_round_bounds _ 0 100).
  - change (inject_Z 0) with 0. apply Qmult_le_0_compat; [|lra].
    apply Qle_shift_div_l; [exact Ht | lra].
  - change (inject_Z 100) with 100.
    assert (inject_Z (Z.of_nat count) / inject_Z (Z.of_nat total) <= 1) as H1
      by (apply Qle_shift_div_r; [exact Ht | lra]).
    lra.
Qed.

(** X1: whatever the outlier detector returns, the count never exceeds
    the number of cells of the column and the percentage is a number
    between 0 and 100. *)
Theorem outlier_count_bounded (series : Series) (r : Outliers.t) :
  detect_outliers_iqr series = Ok r ->
  (Outliers.count r <= len series)%nat /\
  exists p, Outliers.percentage r = Fin p /\ 0 <= p /\ p <= 100.
Proof.
  unfold detect_outliers_iqr.
  destruct (is_empty series || negb (is_numeric_dtype series)) eqn:Hguard.
  { intros [= <-]. cbn. split; [lia|]. exists 0. repeat split; lra. }
  apply orb_false_iff in Hguard as [Hne _].
  destruct (quantile series (1 # 4)) as [Q1|]; [|discriminate].
  destruct (quantile series (3 # 4)) as [Q3|]; [|discriminate].
  cbn [mbind res_bind].
  assert (len series <> 0)%nat as Hlen by (now apply Nat.eqb_neq).
  rewrite (py_truediv_ok _ _ Hlen). cbn [mbind res_bind]. intros [= <-].
  cbn [Outliers.count Outliers.percentage].
  assert (length (List.filter (fun x => fltb x (fsub Q1 (fmul (Fin (3 # 2)) (fsub Q3 Q1)))
                                        || fgtb x (fadd Q3 (fmul (Fin (3 # 2)) (fsub Q3 Q1))))
                    (values series)) <= len series)%nat as Hcount.
  { rewrite <- len_values. apply filter_length_le. }
  split; [exact Hcount|]. now apply percent_of_bounds.
Qed.

Lemma insert_sorted_Forall (P : Q -> Prop) (x : Q) (l : list Q) :
  P x -> List.Forall P l -> List.Forall P (insert_sorted x l).
Proof.
  intros Hx. induction 1 as [|y l Hy Hl IH]; cbn; [repeat constructor; exact Hx|].
  destruct (Qle_bool x y); repeat constructor; assumption.
Qed.



Lemma insert_sorted_length (x : Q) (l : list Q) :
  length (insert_sorted x l) = S (length l).
Proof.
  induction l as [|y l IH]; cbn; [reflexivity|].
  destruct (Qle_bool x y); cbn; now rewrite ?IH.
Qed.

Lemma sort_values_length (l : list Q) : length (sort_values l) = length l.
Proof.
  induction l as [|x l IH]; [reflexivity|].
  change (sort_values (x :: l)) with (insert_sorted x (sort_values l)).
  rewrite insert_sorted_length, IH. reflexivity.
Qed.




Lemma Forall_nth_default {A : Type} (P : A -> Prop) (l : list A) (d : A) (i : nat) :
  List.Forall P l -> P d -> P (nth i l d).
Proof.
  intros Hl Hd. revert i. induction Hl as [|x l Hx Hl IH]; intros [|i]; cbn; auto.
Qed.

Lemma sort_values_Forall (P : Q -> Prop) (l : list Q) :
  List.Forall P l -> List.Forall P (sort_values l).
Proof.
  induction 1 as [|x l Hx Hl IH]; [constructor|].
  change (sort_values (x :: l)) with (insert_sorted x (sort_values l)).
  now apply insert_sorted_Forall.
Qed.

Lemma percentile_linear_constant (l : list Q) (c q : Q) :
  List.Forall (fun x => x == c) l -> l <> [] ->
  exists v, percentile_linear l q = Fin v /\ v == c.
Proof.
  intros Hl Hne. destruct l as [|x0 t]; [contradiction|].
  unfold percentile_linear. eexists. split; [reflexivity|].
  set (l := x0 :: t) in *. set (lo := Z.to_nat _).
  assert (x0 == c) as Hx0 by (now inversion Hl).
  assert (nth lo l x0 == c) as Ha by (now apply Forall_nth_default).
  assert (nth (lo + 1) l (nth lo l x0) == c) as Hb by (now apply Forall_nth_default).
  rewrite Hb, Ha. ring.
Qed.

Lemma dropna_In (xs : list float) (y : Q) : List.In (Fin y) xs -> List.In y (dropna xs).
Proof.
  induction xs as [|x xs IH]; [contradiction|].
  intros [->|H]; [now left|]. destruct x; cbn; auto.
Qed.

Lemma filter_inside (xs : list float) (lo hi c : Q) :
  lo == c -> hi == c -> List.Forall (fun x => x == c) (dropna xs) ->
  List.filter (fun x => fltb x (Fin lo) || fgtb x (Fin hi)) xs = [].
Proof.
  intros Hlo Hhi Hall. rewrite List.Forall_forall in Hall.
  induction xs as [|x xs IH]; [reflexivity|].
  cbn [List.filter].
  assert (fltb x (Fin lo) || fgtb x (Fin hi) = false) as ->.
  { destruct x as [|y]; [reflexivity|].
    assert (y == c) as Hy by (apply Hall, dropna_In; now left).
    apply orb_false_iff. split; apply Qltb_ge; lra. }
  apply IH. intros y Hy. apply Hall. destruct x; cbn; auto.
Qed.

Lemma detect_outliers_no_values (series : Series) :
  is_number series = true -> dropna (values series) = [] ->
  exists r, detect_outliers_iqr series = Ok r /\
    Outliers.count r = 0%nat /\ same_float (Outliers.percentage r) (Fin 0) = true.
Proof.
  intros Hnum Hnone. unfold detect_outliers_iqr.
  rewrite (is_number_numeric series Hnum). cbn [negb]. rewrite orb_false_r.
  destruct (is_empty series) eqn:Hne.
  { eexists. split; [reflexivity|]. split; reflexivity. }
  rewrite !(quantile_number series _ Hnum), Hnone. cbn [mbind res_bind].
  rewrite py_truediv_ok by (unfold is_empty in Hne; now apply Nat.eqb_neq in Hne).
  cbn [mbind res_bind sort_values fold_right percentile_linear].
  rewrite filter_outside_nan by reflexivity.
  eexists. split; [reflexivity|]. split; [reflexivity|]. apply (percent_of_zero (len series)).
Qed.

(** X3: a numeric column whose non-missing values are all equal has no
    outlier: the count is 0 and the percentage 0.0. *)
Theorem constant_column_no_outliers (series : Series) (c : Q) :
  is_number series = true ->
  List.Forall (fun x => x == c) (dropna (values series)) ->
  exists r, detect_outliers_iqr series = Ok r /\
    Outliers.count r = 0%nat /\ same_float (Outliers.percentage r) (Fin 0) = true.
Proof.
  intros Hnum Hall.
  destruct (dropna (values series)) as [|y ys] eqn:Hval.
  { now apply detect_outliers_no_values. }
  unfold detect_outliers_iqr.
  assert (is_empty series = false) as Hne.
  { destruct (is_empty series) eqn:E; [|reflexivity].
    rewrite (is_empty_values series E) in Hval. discriminate. }
  rewrite Hne, (is_number_numeric series Hnum). cbn [negb orb].
  rewrite !(quantile_number series _ Hnum), Hval. cbn [mbind res_bind].
  rewrite py_truediv_ok by (unfold is_empty in Hne; now apply Nat.eqb_neq in Hne).
  cbn [mbind res_bind].
  assert (sort_values (y :: ys) <> []) as Hsne.
  { intros E. apply (f_equal (@length Q)) in E. rewrite sort_values_length in E.
    discriminate. }
  pose proof (sort_values_Forall _ _ Hall) as Hsorted.
  destruct (percentile_linear_constant _ c (1 # 4) Hsorted Hsne) as (q1 & -> & Hq1).
  destruct (percentile_linear_constant _ c (3 # 4) Hsorted Hsne) as (q3 & -> & Hq3).
  cbn [fsub fadd fmul lift2].
  rewrite (filter_inside (values series) _ _ c); [| rewrite Hq1, Hq3; ring
                                                   | rewrite Hq1, Hq3; ring
                                                   | now rewrite Hval].
  eexists. split; [reflexivity|]. split; [reflexivity|]. apply (percent_of_zero (len series)).
Qed.

(** X4: a non-empty numeric column with fewer than two non-missing
    values and a mean other than 0 - in particular a column in which
    every cell is missing - has no standard deviation, and the volatility
    classifier labels it "Moderate Variability" with std-dev and CV both
    NaN. *)
Theorem variability_without_spread (fsqrt : Q -> Q) (series : Series) :
  is_empty series = false ->
  is_numeric_dtype series = true ->
  (length (dropna (values series)) <= 1)%nat ->
  feqb (mean series) (Fin 0) = false ->
  analyze_variability fsqrt series
  = Ok (Variability.mk (Some NaN) (Some NaN) "Moderate Variability").
Proof.
  intros Hne Hnum Hfew Hmean. unfold analyze_variability.
  rewrite Hne, Hnum, Hmean. cbn [negb orb].
  assert (std fsqrt series = NaN) as ->.
  { unfold std. destruct (Nat.leb_spec (length (dropna (values series))) 1); [reflexivity | lia]. }
  rewrite (fdiv_abs NaN (mean series) Hmean). reflexivity.
Qed.

(** X5: the volatility classifier returns one of five labels, and the
    test ["High" in label] that triggers the volatility alert succeeds
    for "High Variability (Volatile)" only. *)
Theorem volatility_alert_label (fsqrt : Q -> Q) (series : Series) (r : Variability.t) :
  analyze_variability fsqrt series = Ok r ->
  let label := Variability.classification r in
  List.In label ["Unknown"; "Unknown (Mean is 0)"; "Low Variability (Stable)";
                 "High Variability (Volatile)"; "Moderate Variability"] /\
  (str_contains "High" label = true <-> label = "High Variability (Volatile)").
Proof.
  unfold analyze_variability.
  destruct (is_empty series || negb (is_numeric_dtype series)).
  { intros [= <-]. cbn. split; [auto|]. split; discriminate. }
  destruct (feqb (mean series) (Fin 0)) eqn:Hm.
  { intros [= <-]. cbn. split; [auto|]. split; discriminate. }
  rewrite (fdiv_abs _ _ Hm). cbn [mbind res_bind]. intros [= <-].
  cbn [Variability.classification].
  destruct (classify_cv_cases (lift2 Qdiv (std fsqrt series) (fabs (mean series))))
    as [[_ ->]|[(_ & _ & ->)|(_ & _ & ->)]];
    (split; [cbn; auto 6 | split; [cbn; try discriminate; reflexivity | ]]);
    intros; try discriminate; reflexivity.
Qed.

(** X6: on a table with distinct labels the statistical engine returns,
    and its [numeric_columns] dictionary has an entry exactly for the
    labels of the int64 and float64 columns - none for a text or boolean
    column, none for a label the table does not have - while its
    correlations are those of [compute_correlations]. *)
Theorem engine_entries (fsqrt : Q -> Q) (df : DataFrame) :
  NoDup (columns df) ->
  exists stats, run_statistical_analysis fsqrt df = Ok stats /\
    StatsProfile.correlations stats = compute_correlations fsqrt df /\
    forall col, is_Some (StatsProfile.numeric_columns stats !! col)
                <-> exists s, (col, s) ∈ data df /\ is_number s = true.
Proof.
  intros Hnd. unfold run_statistical_analysis.
  set (l := List.filter (fun c => is_number (snd c)) (data df)).
  assert (forall c, c ∈ l <-> c ∈ data df /\ is_number (snd c) = true) as Hl.
  { intros c. subst l. rewrite !list_elem_of_In. apply filter_In. }
  destruct (numeric_loop fsqrt df l) with (acc := (∅ : gmap string ColumnStats.t))
    as (m & Hm & Hout & Hin).
  { intros [k s] [Hks Hnum]%Hl. split; [|exact Hnum]. now apply getitem_unique. }
  change (columns (select_dtypes_number df)) with (map fst l).
  rewrite Hm. cbn [mbind res_bind]. eexists. split; [reflexivity|].
  cbn [StatsProfile.correlations StatsProfile.numeric_columns].
  split; [reflexivity|]. intros col. split.
  - intros Hsome. destruct (decide (col ∈ map fst l)) as [Hk|Hk].
    + apply list_elem_of_fmap in Hk as ([k s] & -> & Hks%Hl). exists s. exact Hks.
    + rewrite (Hout col Hk), lookup_empty in Hsome. now destruct Hsome.
  - intros (s & Hcs & Hnum).
    destruct (Hin (NoDup_filter_labels _ _ Hnd) col s) as (sd & -> & _); [|eauto].
    apply Hl. auto.
Qed.

Lemma Qsum_all_zero (l : list Q) : List.Forall (fun x => x == 0) l -> Qsum l == 0.
Proof.
  induction 1 as [|x l Hx Hl IH]; [reflexivity|].
  cbn [Qsum fold_right]. fold (Qsum l). rewrite Hx, IH. reflexivity.
Qed.

Lemma Qsum_all_equal (l : list Q) (c : Q) :
  List.Forall (fun x => x == c) l -> Qsum l == Qlen l * c.
Proof.
  unfold Qlen. induction 1 as [|x l Hx Hl IH].
  - cbn. ring.
  - cbn [Qsum fold_right length]. fold (Qsum l). rewrite IH, Hx, Nat2Z.inj_succ.
    unfold Z.succ. rewrite inject_Z_plus. ring.
Qed.

Lemma central_sum_all_equal (l : list Q) (c : Q) :
  List.Forall (fun x => x == c) l -> central_sum 2 l == 0.
Proof.
  intros Hall. destruct l as [|x0 t]; [reflexivity|].
  assert (Qmean (x0 :: t) == c) as Hmean.
  { unfold Qmean. rewrite (Qsum_all_equal _ c Hall). unfold Qlen.
    assert (0 < inject_Z (Z.of_nat (length (x0 :: t)))) as Hpos
      by (change 0 with (inject_Z 0); rewrite <- Zlt_Qlt; cbn [length]; lia).
    field. lra. }
  unfold central_sum. apply Qsum_all_zero. apply List.Forall_map.
  eapply List.Forall_impl; [|exact Hall].
  intros x Hx. cbn beta. change (Qpower_positive ?y 2) with (y * y).
  rewrite Hx, Hmean. ring.
Qed.

Lemma complete_pairs_fst (xs ys : list float) (c : Q) :
  List.Forall (fun x => x == c) (dropna xs) ->
  List.Forall (fun x => x == c) (map fst (complete_pairs xs ys)).
Proof.
  revert ys. induction xs as [|x xs IH]; intros ys Hall; [constructor|].
  destruct x as [|a]; destruct ys as [|[|b] ys]; cbn in *; try constructor;
    try (apply IH; assumption); inversion Hall; auto.
Qed.

Lemma complete_pairs_snd (xs ys : list float) (c : Q) :
  List.Forall (fun y => y == c) (dropna ys) ->
  List.Forall (fun y => y == c) (map snd (complete_pairs xs ys)).
Proof.
  revert ys. induction xs as [|x xs IH]; intros ys Hall; [constructor|].
  destruct x as [|a]; destruct ys as [|[|b] ys]; cbn in *; try constructor;
    try (apply IH; assumption); inversion Hall; auto.
Qed.

Section ConstantColumns.

Variable fsqrt : Q -> Q.
Hypothesis fsqrt_zero : forall x, x == 0 -> fsqrt x == 0.

Lemma pearson_constant (xs ys : list float) (c : Q) :
  List.Forall (fun x => x == c) (dropna xs) \/ List.Forall (fun y => y == c) (dropna ys) ->
  pearson fsqrt xs ys = NaN.
Proof using fsqrt_zero.
  intros Hconst. unfold pearson.
  destruct (length (complete_pairs xs ys) <? 1)%nat; [reflexivity|].
  assert (central_sum 2 (map fst (complete_pairs xs ys))
          * central_sum 2 (map snd (complete_pairs xs ys)) == 0) as Hzero.
  { destruct Hconst as [H|H].
    - rewrite (central_sum_all_equal _ c (complete_pairs_fst xs ys c H)). ring.
    - rewrite (central_sum_all_equal _ c (complete_pairs_snd xs ys c H)). ring. }
  apply fsqrt_zero, Qeq_bool_iff in Hzero. now rewrite Hzero.
Qed.

(** X7: with a square root that maps 0 to 0, a column whose non-missing
    values are all equal takes part in no correlation finding of a table
    with distinct labels: its coefficient with any other column is NaN. *)
Theorem constant_column_uncorrelated (df : DataFrame) (col : string) (s : Series)
    (c : Q) (f : Correlation.t) :
  NoDup (columns df) ->
  (col, s) ∈ data df ->
  List.Forall (fun x => x == c) (dropna (values s)) ->
  f ∈ compute_correlations fsqrt df ->
  Correlation.col_1 f <> col /\ Correlation.col_2 f <> col.
Proof using fsqrt_zero.
  intros Hnd Hcs Hconst Hf. rewrite compute_correlations_eq in Hf.
  apply list_elem_of_omap in Hf as ([i j] & _ & Hfind).
  unfold finding in Hfind. cbn [fst snd] in Hfind.
  set (numeric := data (select_dtypes_number df)) in *.
  destruct (numeric !! i) as [[k1 s1]|] eqn:Hi; [|discriminate].
  destruct (numeric !! j) as [[k2 s2]|] eqn:Hj; [|discriminate].
  cbn [fst snd] in Hfind. cbn zeta in Hfind.
  destruct (fgtb (fabs (pearson fsqrt (values s1) (values s2))) (Fin (7 # 10))) eqn:Hs;
    [|discriminate].
  injection Hfind as <-. cbn [Correlation.col_1 Correlation.col_2].
  assert (forall k t, (k, t) ∈ numeric -> (k, t) ∈ data df) as Hsub.
  { intros k t Hkt. apply list_elem_of_In, filter_In in Hkt as [Hkt _].
    now apply list_elem_of_In. }
  apply list_elem_of_lookup_2, Hsub in Hi. apply list_elem_of_lookup_2, Hsub in Hj.
  split; intros ->.
  - rewrite (label_determines_column _ _ _ _ Hnd Hi Hcs) in Hs.
    rewrite (pearson_constant _ _ c) in Hs by (now left). discriminate.
  - rewrite (label_determines_column _ _ _ _ Hnd Hj Hcs) in Hs.
    rewrite (pearson_constant _ _ c) in Hs by (now right). discriminate.
Qed.

End ConstantColumns.

Lemma Qsqrt_zero (x : Q) : x == 0 -> Qsqrt x == 0.
Proof.
  intros Hx. unfold Qsqrt.
  assert (Qnum x = 0%Z) as -> by (unfold Qeq in Hx; cbn in Hx; lia).
  reflexivity.
Qed.

Lemma constant_column_uncorrelated_witness :
  NoDup (columns table_with_constant) /\
  ("k", SInt64 [7; 7; 7]%Z) ∈ data table_with_constant /\
  List.Forall (fun x => x == 7) (dropna (values (SInt64 [7; 7; 7]%Z))) /\
  Correlation.mk "b" "a" (Fin (100 # 100)) "Very Strong"
    ∈ compute_correlations Qsqrt table_with_constant /\
  "b" <> "k" /\ "a" <> "k".
Proof.
  assert (NoDup (columns table_with_constant)) as Hnd.
  { cbn. repeat (apply NoDup_cons_2;
                 [rewrite ?elem_of_cons, elem_of_nil; intuition discriminate|]).
    constructor. }
  assert (("k", SInt64 [7; 7; 7]%Z) ∈ data table_with_constant) as Hk
    by (cbn; right; left).
  assert (List.Forall (fun x => x == 7) (dropna (values (SInt64 [7; 7; 7]%Z)))) as Hc
    by (repeat constructor).
  assert (Correlation.mk "b" "a" (Fin (100 # 100)) "Very Strong"
            ∈ compute_correlations Qsqrt table_with_constant) as Hf
    by (vm_compute; left).
  split; [exact Hnd|]. split; [exact Hk|]. split; [exact Hc|]. split; [exact Hf|].
  exact (constant_column_uncorrelated Qsqrt Qsqrt_zero table_with_constant "k" _ 7 _
           Hnd Hk Hc Hf).
Defined.

Lemma omap_sorted {A B : Type} (R : A -> A -> Prop) (f : A -> option B) (l : list A) :
  StronglySorted R l ->
  StronglySorted (fun y1 y2 => exists x1 x2, f x1 = Some y1 /\ f x2 = Some y2 /\ R x1 x2)
    (omap f l).
Proof.
  induction 1 as [|x l Hl IH Hx]; [constructor|].
  cbn [omap list_omap]. destruct (f x) as [y|] eqn:Hfx; [|exact IH].
  constructor; [exact IH|]. apply List.Forall_forall. intros y' Hy'.
  apply list_elem_of_In, list_elem_of_omap in Hy' as (x' & Hx' & Hfx').
  exists x, x'. split; [exact Hfx|]. split; [exact Hfx'|].
  rewrite List.Forall_forall in Hx. now apply Hx, list_elem_of_In.
Qed.

Lemma sorted_lookup {A : Type} (R : A -> A -> Prop) (l : list A) :
  StronglySorted R l ->
  forall k1 k2 a b, (k1 < k2)%nat -> l !! k1 = Some a -> l !! k2 = Some b -> R a b.
Proof.
  induction 1 as [|x l Hl IH Hx]; intros k1 k2 a b Hk H1 H2; [discriminate|].
  destruct k2 as [|k2]; [lia|]. cbn in H2. destruct k1 as [|k1].
  - injection H1 as <-. rewrite List.Forall_forall in Hx.
    apply Hx, list_elem_of_In. now apply list_elem_of_lookup_2 in H2.
  - cbn in H1. apply (IH k1 k2); [lia | assumption | assumption].
Qed.

Lemma row_sorted (i start len : nat) :
  StronglySorted loop_before (map (fun j => (i, j)) (seq start len)).
Proof.
  revert start. induction len as [|len IH]; intros start; [constructor|].
  cbn [seq map]. constructor; [apply IH|].
  apply List.Forall_forall. intros [i' j] Hin.
  apply in_map_iff in Hin as (j0 & [= <- <-] & Hj0). apply in_seq in Hj0.
  right. cbn. lia.
Qed.

Lemma lower_triangle_sorted (n : nat) : StronglySorted loop_before (lower_triangle n).
Proof.
  unfold lower_triangle. induction n as [|n IH]; [constructor|].
  rewrite seq_S, flat_map_app. cbn [flat_map]. rewrite app_nil_r.
  apply StronglySorted_app_2; [|exact IH|].
  - intros [i j] [i' j'] Hin Hin'. apply lower_triangle_spec in Hin.
    apply list_elem_of_In, in_map_iff in Hin' as (j0 & [= <- <-] & _).
    left. cbn. lia.
  - apply row_sorted.
Qed.

(** X8: the findings come out in the order of the two loops: a finding
    that precedes another one in the result was found at an earlier
    position pair - a smaller outer index, or the same outer index and a
    smaller inner index. *)
Theorem correlations_in_loop_order (fsqrt : Q -> Q) (df : DataFrame)
    (k1 k2 : nat) (f1 f2 : Correlation.t) :
  (k1 < k2)%nat ->
  compute_correlations fsqrt df !! k1 = Some f1 ->
  compute_correlations fsqrt df !! k2 = Some f2 ->
  let numeric := data (select_dtypes_number df) in
  exists p1 p2,
    finding fsqrt numeric p1 = Some f1 /\ finding fsqrt numeric p2 = Some f2 /\
    map fst numeric !! fst p1 = Some (Correlation.col_1 f1) /\
    map fst numeric !! snd p1 = Some (Correlation.col_2 f1) /\
    map fst numeric !! fst p2 = Some (Correlation.col_1 f2) /\
    map fst numeric !! snd p2 = Some (Correlation.col_2 f2) /\
    loop_before p1 p2.
Proof.
  intros Hk H1 H2 numeric. rewrite compute_correlations_eq in H1, H2.
  pose proof (omap_sorted _ (finding fsqrt numeric) _
                (lower_triangle_sorted (length numeric))) as Hsorted.
  destruct (sorted_lookup _ _ Hsorted k1 k2 f1 f2 Hk H1 H2) as (p1 & p2 & Hp1 & Hp2 & Hlt).
  exists p1, p2. destruct (finding_labels fsqrt numeric p1 f1 Hp1) as [? ?].
  destruct (finding_labels fsqrt numeric p2 f2 Hp2) as [? ?]. auto 10.
Qed.

(** * Further facts about the reliability scorer *)

Section MoreAnalystFacts.

Variable fmt : float -> string.

(** X9: a profile without cells - no rows or no columns - gets the int
    0 as completeness and the score "LOW (Poor Data Quality)"; its last
    warning reads "Data is only 0% complete.", and with no rows the
    sample-size warning precedes it. *)
Theorem confidence_without_cells (profile : ProfileReport.t) :
  total_cells profile = 0%Z ->
  exists c, calculate_data_confidence fmt profile = Ok c /\
    Confidence.completeness c = PyInt 0 /\
    Confidence.score c = "LOW (Poor Data Quality)" /\
    last (Confidence.warnings c) = Some "Data is only 0% complete." /\
    (DatasetSummary.total_rows (ProfileReport.summary profile) = 0%nat ->
     Confidence.warnings c = [size_warning; "Data is only 0% complete."]).
Proof.
  unfold total_cells. intros Hcells. unfold calculate_data_confidence.
  rewrite Hcells. cbn [Z.gtb Z.compare mbind res_bind to_float].
  eexists. split; [reflexivity|].
  cbn [Confidence.completeness Confidence.score Confidence.warnings fltb].
  change (Qltb (inject_Z 0) 80) with true. cbn [fst snd].
  split; [reflexivity|]. split; [reflexivity|]. split.
  - destruct (_ <? 50)%nat; [reflexivity|]. destruct (_ <? 200)%nat; reflexivity.
  - intros ->. reflexivity.
Qed.

Lemma total_missing_zero (profile : ProfileReport.t) :
  List.Forall (fun c => ColumnProfile.missing_count c = 0%nat) (ProfileReport.columns profile) ->
  total_missing profile = 0%Z.
Proof.
  unfold total_missing. induction 1 as [|c l Hc Hl IH]; [reflexivity|].
  cbn [map fold_right]. rewrite IH, Hc. reflexivity.
Qed.

(** X10: a profile of at least 200 rows and at least one column in which
    no column reports a missing value is 100.0 percent complete and
    scores "HIGH" without any warning. *)
Theorem complete_large_dataset (profile : ProfileReport.t) :
  (200 <= DatasetSummary.total_rows (ProfileReport.summary profile))%nat ->
  (1 <= DatasetSummary.total_columns (ProfileReport.summary profile))%nat ->
  List.Forall (fun c => ColumnProfile.missing_count c = 0%nat) (ProfileReport.columns profile) ->
  calculate_data_confidence fmt profile
  = Ok (Confidence.mk "HIGH" (PyFloat (Fin (1000 # 10)))
          (DatasetSummary.total_rows (ProfileReport.summary profile)) []).
Proof.
  intros Hrows Hcols Hmiss. unfold calculate_data_confidence.
  fold (total_missing profile). fold (total_cells profile).
  rewrite (total_missing_zero profile Hmiss).
  assert (0 < total_cells profile)%Z as Hpos by (unfold total_cells; nia).
  destruct (Z.gtb_spec (total_cells profile) 0) as [_|?]; [|lia].
  unfold py_truediv. destruct (Z.eqb_spec (total_cells profile) 0) as [?|_]; [lia|].
  cbn [mbind res_bind fmul lift2 py_round to_float].
  rewrite (round_half_even_eq _ 1000).
  - change (round_half_even 1000) with 1000%Z.
    change (fltb (Fin (1000 # pow10 1)) (Fin 80)) with false.
    destruct (Nat.ltb_spec (DatasetSummary.total_rows (ProfileReport.summary profile)) 50);
      [lia|].
    destruct (Nat.ltb_spec (DatasetSummary.total_rows (ProfileReport.summary profile)) 200);
      [lia|].
    reflexivity.
  - rewrite Z.sub_0_r.
    assert (0 < inject_Z (total_cells profile)) as Hq
      by (change 0 with (inject_Z 0); rewrite <- Zlt_Qlt; exact Hpos).
    change (Zpos (pow10 1) # 1) with 10. field. lra.
Qed.

Lemma completeness_bounds (profile : ProfileReport.t) :
  (total_missing profile <= total_cells profile)%Z ->
  exists c q, calculate_data_confidence fmt profile = Ok c /\
    to_float (Confidence.completeness c) = Fin q /\ 0 <= q /\ q <= 100 /\
    Confidence.sample_size c = DatasetSummary.total_rows (ProfileReport.summary profile).
Proof.
  intros Hle. unfold calculate_data_confidence.
  fold (total_missing profile). fold (total_cells profile).
  assert (0 <= total_missing profile)%Z as Hnonneg.
  { unfold total_missing. induction (ProfileReport.columns profile) as [|c l IH]; cbn; lia. }
  destruct (Z.gtb_spec (total_cells profile) 0) as [Hpos|Hzero].
  - unfold py_truediv. destruct (Z.eqb_spec (total_cells profile) 0) as [?|_]; [lia|].
    cbn [mbind res_bind fmul lift2].
    set (ratio := inject_Z (total_cells profile - total_missing profile)
                  / inject_Z (total_cells profile)).
    assert (0 < inject_Z (total_cells profile)) as Hq
      by (change 0 with (inject_Z 0); rewrite <- Zlt_Qlt; exact Hpos).
    assert (0 <= ratio /\ ratio <= 1) as [Hr0 Hr1].
    { subst ratio. split.
      - apply Qle_shift_div_l; [exact Hq|]. rewrite Qmult_0_l.
        change 0 with (inject_Z 0). rewrite <- Zle_Qle. lia.
      - apply Qle_shift_div_r; [exact Hq|]. rewrite Qmult_1_l. rewrite <- Zle_Qle. lia. }
    destruct (py_round_bounds (ratio * 100) 0 100 1) as (p & Hp & Hp0 & Hp1).
    { change (inject_Z 0) with 0. lra. }
    { change (inject_Z 100) with 100. lra. }
    eexists. exists p. split; [reflexivity|].
    cbn [Confidence.completeness to_float Confidence.sample_size]. split; [exact Hp|].
    split; [exact Hp0|]. split; [exact Hp1 | reflexivity].
  - cbn [mbind res_bind]. eexists. exists 0. split; [reflexivity|].
    cbn. repeat split; lra.
Qed.

(** X11: when the missing cells reported by the columns do not exceed
    the number of cells, the scorer returns a completeness between 0 and
    100. *)
Theorem completeness_in_range (profile : ProfileReport.t) :
  (total_missing profile <= total_cells profile)%Z ->
  exists c q, calculate_data_confidence fmt profile = Ok c /\
    to_float (Confidence.completeness c) = Fin q /\ 0 <= q /\ q <= 100.
Proof.
  intros Hle. destruct (completeness_bounds profile Hle) as (c & q & Hc & Hq & H0 & H1 & _).
  exists c, q. auto.
Qed.

End MoreAnalystFacts.

Lemma confidence_without_cells_witness :
  total_cells header_only = 0%Z /\
  exists c, calculate_data_confidence float_repr header_only = Ok c /\
    Confidence.completeness c = PyInt 0 /\
    Confidence.score c = "LOW (Poor Data Quality)" /\
    last (Confidence.warnings c) = Some "Data is only 0% complete." /\
    (DatasetSummary.total_rows (ProfileReport.summary header_only) = 0%nat ->
     Confidence.warnings c = [size_warning; "Data is only 0% complete."]).
Proof.
  split; [reflexivity|]. apply (confidence_without_cells float_repr header_only). reflexivity.
Defined.

Lemma complete_large_dataset_witness :
  (200 <= DatasetSummary.total_rows (ProfileReport.summary complete_profile))%nat /\
  (1 <= DatasetSummary.total_columns (ProfileReport.summary complete_profile))%nat /\
  List.Forall (fun c => ColumnProfile.missing_count c = 0%nat)
    (ProfileReport.columns complete_profile) /\
  calculate_data_confidence float_repr complete_profile
  = Ok (Confidence.mk "HIGH" (PyFloat (Fin (1000 # 10))) 250 []).
Proof.
  assert (200 <= DatasetSummary.total_rows (ProfileReport.summary complete_profile))%nat
    as H1 by (cbn; lia).
  assert (1 <= DatasetSummary.total_columns (ProfileReport.summary complete_profile))%nat
    as H2 by (cbn; lia).
  assert (List.Forall (fun c => ColumnProfile.missing_count c = 0%nat)
            (ProfileReport.columns complete_profile)) as H3 by (repeat constructor).
  split; [exact H1|]. split; [exact H2|]. split; [exact H3|].
  exact (complete_large_dataset float_repr complete_profile H1 H2 H3).
Defined.

Lemma completeness_in_range_witness :
  (total_missing scenario_E <= total_cells scenario_E)%Z /\
  exists c q, calculate_data_confidence float_repr scenario_E = Ok c /\
    to_float (Confidence.completeness c) = Fin q /\ 0 <= q /\ q <= 100.
Proof.
  assert (total_missing scenario_E <= total_cells scenario_E)%Z as H by (vm_compute; discriminate).
  split; [exact H|]. exact (completeness_in_range float_repr scenario_E H).
Defined.

(** * The further facts at work on the example data *)

Lemma outlier_count_bounded_witness :
  exists r, detect_outliers_iqr scenario_A = Ok r /\
    (Outliers.count r <= len scenario_A)%nat /\
    exists p, Outliers.percentage r = Fin p /\ 0 <= p /\ p <= 100.
Proof.
  eexists. split; [vm_compute; reflexivity|].
  apply (outlier_count_bounded scenario_A). vm_compute. reflexivity.
Defined.


Lemma constant_column_no_outliers_witness :
  is_number scenario_B = true /\
  List.Forall (fun x => x == 5) (dropna (values scenario_B)) /\
  exists r, detect_outliers_iqr scenario_B = Ok r /\
    Outliers.count r = 0%nat /\ same_float (Outliers.percentage r) (Fin 0) = true.
Proof.
  assert (List.Forall (fun x => x == 5) (dropna (values scenario_B))) as H
    by (repeat constructor).
  split; [reflexivity|]. split; [exact H|].
  exact (constant_column_no_outliers scenario_B 5 eq_refl H).
Defined.

Lemma variability_without_spread_witness :
  is_empty (SFloat64 [NaN; NaN]) = false /\
  is_numeric_dtype (SFloat64 [NaN; NaN]) = true /\
  (length (dropna (values (SFloat64 [NaN; NaN]))) <= 1)%nat /\
  feqb (mean (SFloat64 [NaN; NaN])) (Fin 0) = false /\
  analyze_variability Qsqrt (SFloat64 [NaN; NaN])
  = Ok (Variability.mk (Some NaN) (Some NaN) "Moderate Variability").
Proof.
  split; [reflexivity|]. split; [reflexivity|]. split; [cbn; lia|]. split; [reflexivity|].
  apply (variability_without_spread Qsqrt (SFloat64 [NaN; NaN]));
    [reflexivity | reflexivity | cbn; lia | reflexivity].
Defined.

Lemma volatility_alert_label_witness :
  exists r, analyze_variability Qsqrt scenario_A = Ok r /\
    List.In (Variability.classification r)
      ["Unknown"; "Unknown (Mean is 0)"; "Low Variability (Stable)";
       "High Variability (Volatile)"; "Moderate Variability"] /\
    (str_contains "High" (Variability.classification r) = true
     <-> Variability.classification r = "High Variability (Volatile)").
Proof.
  eexists. split; [vm_compute; reflexivity|].
  apply (volatility_alert_label Qsqrt scenario_A). vm_compute. reflexivity.
Defined.

Lemma engine_entries_witness :
  NoDup (columns sample_table) /\
  exists stats, run_statistical_analysis Qsqrt sample_table = Ok stats /\
    StatsProfile.correlations stats = compute_correlations Qsqrt sample_table /\
    forall col, is_Some (StatsProfile.numeric_columns stats !! col)
                <-> exists s, (col, s) ∈ data sample_table /\ is_number s = true.
Proof.
  split; [exact (proj1 sample_table_well_formed)|].
  exact (engine_entries Qsqrt sample_table (proj1 sample_table_well_formed)).
Defined.

Lemma correlations_in_loop_order_witness :
  (0 < 1)%nat /\
  compute_correlations Qsqrt three_trends !! 0%nat
  = Some (Correlation.mk "b" "a" (Fin (100 # 100)) "Very Strong") /\
  compute_correlations Qsqrt three_trends !! 1%nat
  = Some (Correlation.mk "c" "a" (Fin (100 # 100)) "Very Strong") /\
  exists p1 p2,
    map fst (data (select_dtypes_number three_trends)) !! fst p1 = Some "b" /\
    map fst (data (select_dtypes_number three_trends)) !! snd p1 = Some "a" /\
    map fst (data (select_dtypes_number three_trends)) !! fst p2 = Some "c" /\
    map fst (data (select_dtypes_number three_trends)) !! snd p2 = Some "a" /\
    loop_before p1 p2.
Proof.
  assert (compute_correlations Qsqrt three_trends !! 0%nat
          = Some (Correlation.mk "b" "a" (Fin (100 # 100)) "Very Strong")) as H1
    by (vm_compute; reflexivity).
  assert (compute_correlations Qsqrt three_trends !! 1%nat
          = Some (Correlation.mk "c" "a" (Fin (100 # 100)) "Very Strong")) as H2
    by (vm_compute; reflexivity).
  split; [lia|]. split; [exact H1|]. split; [exact H2|].
  destruct (correlations_in_loop_order Qsqrt three_trends 0 1 _ _ (Nat.lt_0_1) H1 H2)
    as (p1 & p2 & _ & _ & Ha & Hb & Hc & Hd & Hlt).
  exists p1, p2. auto.
Defined.

(** * Further facts about the profiler *)





Lemma isnull_sum_le (s : Series) : (isnull_sum s <= len s)%nat.
Proof.
  unfold isnull_sum. etransitivity; [apply filter_length_le|].
  destruct s; cbn; now rewrite length_map.
Qed.

Lemma duplicated_count (df : DataFrame) :
  (length (List.filter id (duplicated df)) <= index_len df - 1)%nat.
Proof.
  unfold duplicated.
  destruct (Nat.eqb (index_len df) 0 || Nat.eqb (length (data df)) 0); [cbn; lia|].
  destruct (index_len df) as [|n]; [cbn; lia|].
  cbn [seq map existsb List.filter id].
  etransitivity; [apply filter_length_le|]. rewrite length_map, length_seq. lia.
Qed.

Section MoreProfilerFacts.

Variable fsqrt : Q -> Q.
Variable fmt : float -> string.
Variable memory_usage_sum : DataFrame -> Z.


(** X13: in the summary of the report the duplicate count stays below
    the row count (the first row is never a duplicate) and is 0 for a
    table without rows or without columns, and the fields [file_size_kb]
    and [memory_usage_kb] hold the same number, the memory estimate in
    kilobytes rounded to two decimals. *)
Theorem summary_facts (df : DataFrame) (filename : string) :
  well_formed df ->
  exists rep,
    analyze_dataset fsqrt fmt memory_usage_sum df filename = Ok rep /\
    let summary := ProfileReport.summary rep in
    (DatasetSummary.duplicate_rows summary <= DatasetSummary.total_rows summary - 1)%nat /\
    (index_len df = 0%nat \/ data df = [] -> DatasetSummary.duplicate_rows summary = 0%nat) /\
    DatasetSummary.file_size_kb summary = DatasetSummary.memory_usage_kb summary /\
    DatasetSummary.memory_usage_kb summary
    = py_round (Fin (inject_Z (memory_usage_sum df) / 1024)) 2.
Proof.
  intros [Hnd _]. destruct (analyze_dataset_eq fsqrt fmt memory_usage_sum df filename Hnd)
    as (stats & _ & _ & _ & ->).
  eexists. split; [reflexivity|].
  cbn [ProfileReport.summary dataset_summary DatasetSummary.duplicate_rows
       DatasetSummary.total_rows DatasetSummary.file_size_kb DatasetSummary.memory_usage_kb].
  split; [apply duplicated_count|]. split; [|split; reflexivity].
  intros [H|H]; unfold duplicated; rewrite H; cbn [length Nat.eqb orb List.filter];
    [reflexivity | now rewrite orb_true_r].
Qed.

Lemma report_missing_le_cells (df : DataFrame) (stats : StatsProfile.t) :
  List.Forall (fun c => len (snd c) = index_len df) (data df) ->
  (fold_right Z.add 0%Z
     (map (fun c => Z.of_nat (ColumnProfile.missing_count c))
        (map (fun c => column_profile (fst c) (snd c)
                         (StatsProfile.numeric_columns stats !! fst c)) (data df)))
   <= Z.of_nat (index_len df) * Z.of_nat (length (data df)))%Z.
Proof.
  induction 1 as [|[col s] l Hc Hl IH]; [cbn; lia|].
  cbn [map fold_right length fst snd] in *.
  destruct (column_profile_basics col s (StatsProfile.numeric_columns stats !! col))
    as (_ & _ & -> & _).
  pose proof (isnull_sum_le s). lia.
Qed.

(** X14: scoring the report that [analyze_dataset] makes of a
    well-formed table always succeeds; the sample size is the number of
    rows of the table and the completeness lies between 0 and 100. *)
Theorem own_report_scored (df : DataFrame) (filename : string) :
  well_formed df ->
  exists rep c q,
    analyze_dataset fsqrt fmt memory_usage_sum df filename = Ok rep /\
    calculate_data_confidence fmt rep = Ok c /\
    Confidence.sample_size c = index_len df /\
    to_float (Confidence.completeness c) = Fin q /\ 0 <= q /\ q <= 100.
Proof.
  intros [Hnd Hlen].
  destruct (analyze_dataset_eq fsqrt fmt memory_usage_sum df filename Hnd)
    as (stats & _ & _ & _ & Hrep).
  eexists. 
  edestruct (completeness_bounds fmt) as (c & q & Hc & Hq & H0 & H1 & Hn);
    [| exists c, q; split; [exact Hrep|]; split; [exact Hc|];
       split; [exact Hn|]; split; [exact Hq|]; split; [exact H0 | exact H1]].
  unfold total_missing, total_cells. cbn [ProfileReport.columns ProfileReport.summary
    dataset_summary DatasetSummary.total_rows DatasetSummary.total_columns].
  now apply report_missing_le_cells.
Qed.

End MoreProfilerFacts.


Lemma summary_facts_witness :
  well_formed sample_table /\
  exists rep,
    analyze_dataset Qsqrt float_repr flat_memory_usage sample_table "data.csv" = Ok rep /\
    (DatasetSummary.duplicate_rows (ProfileReport.summary rep)
     <= DatasetSummary.total_rows (ProfileReport.summary rep) - 1)%nat /\
    DatasetSummary.file_size_kb (ProfileReport.summary rep)
    = DatasetSummary.memory_usage_kb (ProfileReport.summary rep).
Proof.
  split; [exact sample_table_well_formed|].
  destruct (summary_facts Qsqrt float_repr flat_memory_usage sample_table "data.csv"
              sample_table_well_formed) as (rep & Hrep & Hdup & _ & Hsize & _).
  exists rep. split; [exact Hrep|]. split; [exact Hdup | exact Hsize].
Defined.

Lemma own_report_scored_witness :
  well_formed sample_table /\
  exists rep c q,
    analyze_dataset Qsqrt float_repr flat_memory_usage sample_table "data.csv" = Ok rep /\
    calculate_data_confidence float_repr rep = Ok c /\
    Confidence.sample_size c = index_len sample_table /\
    to_float (Confidence.completeness c) = Fin q /\ 0 <= q /\ q <= 100.
Proof.
  split; [exact sample_table_well_formed|].
  exact (own_report_scored Qsqrt float_repr flat_memory_usage sample_table "data.csv"
           sample_table_well_formed).
Defined.

(** * Facts about the intent validator *)

Lemma reject_text_column_fields (intent : string) (v : Validation.t) (col : ColumnProfile.t) :
  Validation.intent (reject_text_column intent v col) = Validation.intent v /\
  Validation.found_columns (reject_text_column intent v col) = Validation.found_columns v.
Proof.
  unfold reject_text_column. destruct (negb _); split; reflexivity.
Qed.

(** Rule 1 over a list of found columns: either every column has a numeric
    dtype and nothing changes, or the result is the rejection that names
    the last column without one. *)
Lemma reject_loop (intent : string) (l : list ColumnProfile.t) :
  forall v,
    (List.Forall (fun c => numeric_dtype_name (ColumnProfile.dtype c) = true) l /\
     fold_left (reject_text_column intent) l v = v) \/
    (exists l1 col l2, l = l1 ++ col :: l2 /\
       numeric_dtype_name (ColumnProfile.dtype col) = false /\
       List.Forall (fun c => numeric_dtype_name (ColumnProfile.dtype c) = true) l2 /\
       fold_left (reject_text_column intent) l v
       = Validation.mk false (Validation.intent v) (Validation.found_columns v)
           "Try counting unique values instead."
           (Some (aggregation_warning intent (ColumnProfile.name col)))).
Proof.
  induction l as [|c l IH]; intros v; [left; split; [constructor | reflexivity]|].
  cbn [fold_left]. destruct (reject_text_column_fields intent v c) as [Hi Hf].
  destruct (IH (reject_text_column intent v c))
    as [[Hall Heq]|(l1 & col & l2 & -> & Hcol & Hall & Heq)].
  - destruct (numeric_dtype_name (ColumnProfile.dtype c)) eqn:Hc.
    + left. split; [now constructor|]. rewrite Heq. unfold reject_text_column.
      now rewrite Hc.
    + right. exists [], c, l. split; [reflexivity|]. split; [exact Hc|].
      split; [exact Hall|]. rewrite Heq. unfold reject_text_column. now rewrite Hc.
  - right. exists (c :: l1), col, l2. split; [reflexivity|]. split; [exact Hcol|].
    split; [exact Hall|]. rewrite Heq, Hi, Hf. reflexivity.
Qed.

Lemma detect_intent_cases (q : string) :
  List.In (detect_intent q) ["aggregation"; "correlation"; "distribution"; "general_query"].
Proof.
  unfold detect_intent.
  destruct (any_word_in aggregation_words q); [cbn; auto|].
  destruct (any_word_in correlation_words q); [cbn; auto|].
  destruct (any_word_in distribution_words q); cbn; auto.
Qed.

(** X15: the validator rejects a question ([is_valid] false) exactly
    when its intent is "aggregation" and one of the found columns has a
    dtype outside int64, float64, int and float; the warning then names
    the last such column in the order of the profile, and the suggestion
    is "Try counting unique values instead.".  An accepted question keeps
    the suggestion "Proceed with analysis.". *)
Theorem rejection_rule (profile : ProfileReport.t) (question : string) :
  let v := validate_analysis_intent profile question in
  let found := found_columns_of profile question in
  Validation.intent v = detect_intent (str_lower question) /\
  (Validation.is_valid v = false <->
     Validation.intent v = "aggregation" /\
     List.Exists (fun c => numeric_dtype_name (ColumnProfile.dtype c) = false) found) /\
  (Validation.is_valid v = false ->
     Validation.suggestion v = "Try counting unique values instead." /\
     exists l1 col l2, found = l1 ++ col :: l2 /\
       numeric_dtype_name (ColumnProfile.dtype col) = false /\
       List.Forall (fun c => numeric_dtype_name (ColumnProfile.dtype c) = true) l2 /\
       Validation.warning v
       = Some (aggregation_warning "aggregation" (ColumnProfile.name col))) /\
  (Validation.is_valid v = true -> Validation.suggestion v = "Proceed with analysis.").
Proof.
  intros v found. subst v. unfold validate_analysis_intent.
  fold (found_columns_of profile question). fold found.
  set (intent := detect_intent (str_lower question)).
  destruct (String.eqb_spec intent "aggregation") as [Hagg|Hagg].
  - rewrite Hagg. cbn [String.eqb Ascii.eqb Bool.eqb andb].
    set (v0 := Validation.mk true "aggregation" (map ColumnProfile.name found)
                 "Proceed with analysis." None).
    destruct (reject_loop "aggregation" found v0)
      as [[Hall ->]|(l1 & col & l2 & Hsplit & Hcol & Hall & ->)];
      cbn [v0 Validation.is_valid Validation.intent Validation.suggestion Validation.warning].
    + split; [reflexivity|]. split; [|split; [discriminate | reflexivity]].
      split; [discriminate|]. intros [_ Hex]. apply List.Exists_exists in Hex as (c & Hc & Hbad).
      rewrite List.Forall_forall in Hall. rewrite (Hall c Hc) in Hbad. discriminate.
    + split; [reflexivity|]. split; [|split; [|discriminate]].
      * split; [|reflexivity]. intros _. split; [reflexivity|].
        apply List.Exists_exists. exists col. split; [|exact Hcol].
        rewrite Hsplit. apply in_or_app. right. now left.
      * intros _. split; [reflexivity|]. exists l1, col, l2. auto.
  - destruct (String.eqb intent "correlation" && _ && _);
      cbn [Validation.is_valid Validation.intent Validation.suggestion Validation.warning];
      (split; [reflexivity|]); (split; [split; [discriminate | intros [? _]; contradiction]|]);
      (split; [discriminate | reflexivity]).
Qed.

(** X16: a question whose intent is not "aggregation" is never rejected.
    For the intent "correlation" the warning
    "Correlation usually requires two specific variables." is set exactly
    when fewer than two columns were found and the profile has more than
    one column; for "distribution" and "general_query", and otherwise for
    "correlation", there is no warning. *)
Theorem soft_warning_rule (profile : ProfileReport.t) (question : string) :
  let v := validate_analysis_intent profile question in
  let found := found_columns_of profile question in
  Validation.intent v <> "aggregation" ->
  Validation.is_valid v = true /\
  Validation.suggestion v = "Proceed with analysis." /\
  Validation.found_columns v = map ColumnProfile.name found /\
  (Validation.warning v = Some "Correlation usually requires two specific variables."
     <-> Validation.intent v = "correlation" /\ (length found < 2)%nat /\
         (1 < length (ProfileReport.columns profile))%nat) /\
  (Validation.warning v = None \/
   Validation.warning v = Some "Correlation usually requires two specific variables.").
Proof.
  intros v found. subst v. unfold validate_analysis_intent.
  fold (found_columns_of profile question). fold found.
  set (intent := detect_intent (str_lower question)).
  destruct (String.eqb_spec intent "aggregation") as [Hagg|Hagg].
  { rewrite Hagg. cbn [String.eqb Ascii.eqb Bool.eqb andb].
    set (v0 := Validation.mk true "aggregation" (map ColumnProfile.name found)
                 "Proceed with analysis." None).
    destruct (reject_loop "aggregation" found v0)
      as [[_ ->]|(l1 & col & l2 & _ & _ & _ & ->)]; cbn; intros H; now contradiction H. }
  intros _.
  destruct (String.eqb_spec intent "correlation") as [Hcor|Hcor];
    destruct (Nat.ltb_spec (length found) 2); destruct (Nat.ltb_spec 1 (length (ProfileReport.columns profile)));
    cbn [andb Validation.is_valid Validation.intent Validation.suggestion
         Validation.warning Validation.found_columns];
    repeat split; auto; try discriminate; try (intros (? & ? & ?); lia);
    try (intros (? & _); contradiction).
Qed.

Lemma odict_set_keys {V : Type} (key : string) (value : V) (d : list (string * V)) (k : string) :
  k ∈ map fst (odict_set key value d) <-> k = key \/ k ∈ map fst d.
Proof.
  induction d as [|[k0 v0] d IH]; cbn [odict_set map fst].
  - rewrite elem_of_cons, elem_of_nil. tauto.
  - destruct (String.eqb_spec k0 key) as [->|Hne]; cbn [map fst];
      rewrite !elem_of_cons, ?IH; tauto.
Qed.

Lemma odict_set_NoDup {V : Type} (key : string) (value : V) (d : list (string * V)) :
  NoDup (map fst d) -> NoDup (map fst (odict_set key value d)).
Proof.
  induction d as [|[k0 v0] d IH]; cbn [odict_set map fst]; intros Hnd.
  - apply NoDup_singleton.
  - apply NoDup_cons in Hnd as [Hk0 Hnd].
    destruct (String.eqb_spec k0 key) as [->|Hne]; cbn [map fst]; apply NoDup_cons.
    + split; assumption.
    + split; [|auto]. rewrite odict_set_keys. intros [->|H]; contradiction.
Qed.

Lemma odict_set_entries {V : Type} (key : string) (value : V) (d : list (string * V))
    (k : string) (v : V) :
  (k, v) ∈ odict_set key value d -> (k = key /\ v = value) \/ (k, v) ∈ d.
Proof.
  induction d as [|[k0 v0] d IH]; cbn [odict_set].
  - intros [[= -> ->]|H]%elem_of_cons; [auto | inversion H].
  - destruct (String.eqb_spec k0 key) as [->|Hne].
    + intros [[= -> ->]|H]%elem_of_cons; [auto|]. right. now right.
    + intros [[= -> ->]|H]%elem_of_cons; [right; left|].
      destruct (IH H) as [?|?]; [auto | right; now right].
Qed.

(** The dictionary built from the columns: distinct keys, one for every
    column name, each bound to a column of that name. *)
Lemma columns_by_name_spec (cols : list ColumnProfile.t) :
  NoDup (map fst (columns_by_name cols)) /\
  (forall k v, (k, v) ∈ columns_by_name cols -> ColumnProfile.name v = k /\ v ∈ cols) /\
  (forall k, k ∈ map fst (columns_by_name cols) <-> exists c, c ∈ cols /\ ColumnProfile.name c = k).
Proof.
  unfold columns_by_name.
  assert (forall l d,
            NoDup (map fst d) ->
            NoDup (map fst (fold_left (fun d col => odict_set (ColumnProfile.name col) col d) l d)) /\
            (forall k v, (k, v) ∈ fold_left (fun d col => odict_set (ColumnProfile.name col) col d) l d ->
               (ColumnProfile.name v = k /\ v ∈ l) \/ (k, v) ∈ d) /\
            (forall k, k ∈ map fst (fold_left (fun d col => odict_set (ColumnProfile.name col) col d) l d)
               <-> (exists c, c ∈ l /\ ColumnProfile.name c = k) \/ k ∈ map fst d)) as Hgen.
  { induction l as [|c l IH]; intros d Hnd; cbn [fold_left].
    - split; [exact Hnd|]. split; [auto|]. intros k. split; [auto|].
      intros [(c & Hc & _)|H]; [inversion Hc | exact H].
    - destruct (IH (odict_set (ColumnProfile.name c) c d) (odict_set_NoDup _ _ _ Hnd))
        as (H1 & H2 & H3).
      split; [exact H1|]. split.
      + intros k v Hkv. destruct (H2 k v Hkv) as [[Hn Hv]|Hin].
        * left. split; [exact Hn | now right].
        * apply odict_set_entries in Hin as [[-> ->]|Hin]; [left; split; [reflexivity | left] | now right].
      + intros k. rewrite H3, odict_set_keys. split.
        * intros [(c' & Hc' & Hn)|[->|H]]; [left; exists c'; split; [now right | exact Hn]
                                           | left; exists c; split; [left | reflexivity]
                                           | now right].
        * intros [(c' & [->|Hc']%elem_of_cons & Hn)|H];
            [right; left; now symmetry | left; eauto | right; now right]. }
  destruct (Hgen cols [] (NoDup_nil_2)) as (H1 & H2 & H3).
  split; [exact H1|]. split.
  - intros k v Hkv. destruct (H2 k v Hkv) as [?|H]; [assumption | inversion H].
  - intros k. rewrite H3. split; [intros [?|H]; [assumption | inversion H] | auto].
Qed.

Lemma NoDup_filter_keys {V : Type} (p : string * V -> bool) (l : list (string * V)) :
  NoDup (map fst l) -> NoDup (map fst (List.filter p l)).
Proof.
  induction l as [|c l IH]; [intros; constructor|].
  cbn [map List.filter]. intros [Hc Hnd]%NoDup_cons.
  destruct (p c); [|auto]. cbn [map]. apply NoDup_cons. split; [|auto].
  intros Hin. apply Hc. apply list_elem_of_fmap in Hin as (c' & -> & Hc').
  apply list_elem_of_fmap. exists c'. split; [reflexivity|].
  apply list_elem_of_In. apply list_elem_of_In in Hc'.
  now apply filter_In in Hc'.
Qed.

Lemma validate_found_columns (profile : ProfileReport.t) (question : string) :
  Validation.found_columns (validate_analysis_intent profile question)
  = map ColumnProfile.name (found_columns_of profile question).
Proof.
  unfold validate_analysis_intent. fold (found_columns_of profile question).
  set (found := found_columns_of profile question).
  set (intent := detect_intent (str_lower question)).
  set (v0 := Validation.mk true intent (map ColumnProfile.name found)
               "Proceed with analysis." None).
  assert (Validation.found_columns (fold_left (reject_text_column intent) found v0)
          = map ColumnProfile.name found) as Hloop.
  { destruct (reject_loop intent found v0) as [[_ ->]|(? & ? & ? & _ & _ & _ & ->)];
      reflexivity. }
  destruct (String.eqb intent "aggregation");
    destruct (String.eqb intent "correlation" && _ && _); cbn [Validation.found_columns];
    first [exact Hloop | reflexivity].
Qed.

(** X17: the [found_columns] of the result are distinct names, and a
    name is among them exactly when it is the name of a column of the
    profile and its lowered form occurs in the lowered question - so a
    substring is enough ("age" is found in "average"). *)
Theorem found_columns_spec (profile : ProfileReport.t) (question : string) :
  let v := validate_analysis_intent profile question in
  NoDup (Validation.found_columns v) /\
  forall n, n ∈ Validation.found_columns v <->
    (exists c, c ∈ ProfileReport.columns profile /\ ColumnProfile.name c = n) /\
    str_contains (str_lower n) (str_lower question) = true.
Proof.
  cbn zeta. rewrite validate_found_columns. unfold found_columns_of.
  destruct (columns_by_name_spec (ProfileReport.columns profile)) as (Hnd & Hval & Hkeys).
  set (d := columns_by_name (ProfileReport.columns profile)) in *.
  set (hit := fun kv : string * ColumnProfile.t =>
                str_contains (str_lower (fst kv)) (str_lower question)).
  assert (map ColumnProfile.name (map snd (List.filter hit d)) = map fst (List.filter hit d))
    as ->.
  { rewrite map_map. apply map_ext_in. intros [k v] Hin. cbn [fst snd].
    apply filter_In in Hin as [Hin _]. now apply (Hval k v), list_elem_of_In. }
  split; [now apply NoDup_filter_keys|].
  intros n. rewrite <- Hkeys. split.
  - intros ([k v] & -> & Hin)%list_elem_of_fmap.
    apply list_elem_of_In, filter_In in Hin as [Hin Hhit]. cbn [fst]. split; [|exact Hhit].
    apply list_elem_of_fmap. exists (k, v). split; [reflexivity | now apply list_elem_of_In].
  - intros [([k v] & -> & Hin)%list_elem_of_fmap Hhit]. cbn [fst] in Hhit.
    apply list_elem_of_fmap. exists (k, v). split; [reflexivity|].
    apply list_elem_of_In, filter_In. split; [now apply list_elem_of_In | exact Hhit].
Qed.

Lemma ascii_lower_idempotent (c : ascii) : ascii_lower (ascii_lower c) = ascii_lower c.
Proof. destruct c as [[] [] [] [] [] [] [] []]; reflexivity. Qed.

Lemma str_lower_idempotent (s : string) : str_lower (str_lower s) = str_lower s.
Proof.
  induction s as [|c s IH]; [reflexivity|].
  cbn [str_lower]. now rewrite ascii_lower_idempotent, IH.
Qed.

(** X18: the validator does not see the case of the ASCII letters of the
    question: two questions with the same lowered form get the same
    result, and so does a question and its lowered form. *)
Theorem question_case_ignored (profile : ProfileReport.t) (q1 q2 : string) :
  (str_lower q1 = str_lower q2 ->
   validate_analysis_intent profile q1 = validate_analysis_intent profile q2) /\
  validate_analysis_intent profile (str_lower q1) = validate_analysis_intent profile q1.
Proof.
  assert (forall a b, str_lower a = str_lower b ->
            validate_analysis_intent profile a = validate_analysis_intent profile b) as H.
  { intros a b E. unfold validate_analysis_intent. now rewrite E. }
  split; [apply H | apply H, str_lower_idempotent].
Qed.

Lemma rejection_rule_witness :
  validate_analysis_intent people_profile "What is the AVERAGE name?"
  = Validation.mk false "aggregation" ["Name"; "Age"]
      "Try counting unique values instead."
      (Some "Cannot calculate aggregation on text column 'Name'.") /\
  List.Exists (fun c => numeric_dtype_name (ColumnProfile.dtype c) = false)
    (found_columns_of people_profile "What is the AVERAGE name?").
Proof.
  split; [vm_compute; reflexivity|].
  apply (proj1 (proj1 (proj2 (rejection_rule people_profile "What is the AVERAGE name?")))
           eq_refl).
Defined.

Lemma soft_warning_rule_witness :
  Validation.intent (validate_analysis_intent people_profile "trend of age") <> "aggregation" /\
  validate_analysis_intent people_profile "trend of age"
  = Validation.mk true "correlation" ["Age"] "Proceed with analysis."
      (Some "Correlation usually requires two specific variables.") /\
  Validation.is_valid (validate_analysis_intent people_profile "trend of age") = true.
Proof.
  assert (Validation.intent (validate_analysis_intent people_profile "trend of age")
          <> "aggregation") as H by (vm_compute; discriminate).
  split; [exact H|]. split; [vm_compute; reflexivity|].
  exact (proj1 (soft_warning_rule people_profile "trend of age" H)).
Defined.

Lemma found_columns_spec_witness :
  "Age" ∈ Validation.found_columns
            (validate_analysis_intent people_profile "What is the AVERAGE name?").
Proof.
  apply (proj2 (found_columns_spec people_profile "What is the AVERAGE name?")).
  split; [|reflexivity].
  eexists. split; [right; left | reflexivity].
Defined.

Lemma question_case_ignored_witness :
  str_lower "AVERAGE Age" = str_lower "average AGE" /\
  validate_analysis_intent people_profile "AVERAGE Age"
  = validate_analysis_intent people_profile "average AGE".
Proof.
  split; [reflexivity|].
  apply (proj1 (question_case_ignored people_profile "AVERAGE Age" "average AGE")).
  reflexivity.
Defined.

(** X19: the dtype the profiler writes into a column profile passes the
    numeric test of the validator exactly for the int64 and float64
    columns of the table: an "aggregation" question that finds a boolean
    or a text column of a profiled table is rejected. *)
Theorem profiled_dtype_numeric (fsqrt : Q -> Q) (fmt : float -> string)
    (memory_usage_sum : DataFrame -> Z) (df : DataFrame) (filename : string) :
  well_formed df ->
  exists rep,
    analyze_dataset fsqrt fmt memory_usage_sum df filename = Ok rep /\
    forall i col s, data df !! i = Some (col, s) ->
      exists cp, ProfileReport.columns rep !! i = Some cp /\
        ColumnProfile.name cp = col /\
        numeric_dtype_name (ColumnProfile.dtype cp) = is_number s.
Proof.
  intros [Hnd _]. destruct (analyze_dataset_eq fsqrt fmt memory_usage_sum df filename Hnd)
    as (stats & _ & _ & _ & ->).
  eexists. split; [reflexivity|]. cbn [ProfileReport.columns].
  intros i col s Hi. eexists. split; [rewrite list_lookup_fmap, Hi; reflexivity|].
  cbn [fst snd].
  destruct (column_profile_basics col s (StatsProfile.numeric_columns stats !! col))
    as (-> & -> & _).
  split; [reflexivity|]. destruct s; reflexivity.
Qed.

Lemma profiled_dtype_numeric_witness :
  well_formed sample_table /\
  exists rep,
    analyze_dataset Qsqrt float_repr flat_memory_usage sample_table "data.csv" = Ok rep /\
    map (fun cp => numeric_dtype_name (ColumnProfile.dtype cp)) (ProfileReport.columns rep)
    = [true; true; false; false] /\
    Validation.is_valid (validate_analysis_intent rep "mean of d") = false.
Proof.
  split; [exact sample_table_well_formed|].
  destruct (profiled_dtype_numeric Qsqrt float_repr flat_memory_usage sample_table
              "data.csv" sample_table_well_formed) as (rep & Hrep & _).
  exists rep. split; [exact Hrep|]. vm_compute in Hrep. injection Hrep as <-.
  split; reflexivity.
Defined.

(** * The profile as a whole *)

Lemma no_values_all_null (s : Series) :
  is_number s = true -> dropna (values s) = [] -> isnull_all s = true.
Proof.
  unfold isnull_all. destruct s as [xs|xs|xs|xs]; cbn [is_number isnull values];
    try discriminate; intros _.
  - destruct xs; [reflexivity | discriminate].
  - induction xs as [|x xs IH]; [reflexivity|].
    destruct x; cbn; [exact IH | discriminate].
Qed.

Lemma analyze_variability_no_values (fsqrt : Q -> Q) (s : Series) :
  is_number s = true -> dropna (values s) = [] ->
  exists v, analyze_variability fsqrt s = Ok v /\
    Variability.classification v
    = (if is_empty s then "Unknown" else "Moderate Variability").
Proof.
  intros Hnum Hnone. unfold analyze_variability.
  rewrite (is_number_numeric s Hnum). cbn [negb]. rewrite orb_false_r.
  destruct (is_empty s); [eexists; split; reflexivity|].
  unfold mean, std. rewrite Hnone. cbn. eexists. split; reflexivity.
Qed.

Section WholeProfile.

Variable fsqrt : Q -> Q.
Variable fmt : float -> string.
Variable memory_usage_sum : DataFrame -> Z.

(** C1 (amended): on every well-formed table [analyze_dataset] returns,
    and what it returns is a complete report: the file name, the row and
    column counts of the table, one column profile per column under the
    column's label, and no narrative.  A text or boolean column keeps
    the default diagnostic fields - zero outliers, no shape and no
    volatility label, and for text no mean, minimum or maximum.  Every
    int64 or float64 column gets an outlier count, a shape label and a
    volatility label; one without any non-missing value gets zero
    outliers, the shape "Unknown", the volatility "Moderate Variability"
    ("Unknown" when it has no rows) and no mean, minimum or maximum,
    not the defaults. *)
Theorem profile_never_raises (df : DataFrame) (filename : string) :
  well_formed df ->
  exists rep,
    analyze_dataset fsqrt fmt memory_usage_sum df filename = Ok rep /\
    ProfileReport.filename rep = filename /\
    DatasetSummary.total_rows (ProfileReport.summary rep) = index_len df /\
    DatasetSummary.total_columns (ProfileReport.summary rep) = length (data df) /\
    ProfileReport.ai_analysis rep = None /\
    map ColumnProfile.name (ProfileReport.columns rep) = columns df /\
    (forall i col s, data df !! i = Some (col, s) -> is_number s = false ->
       exists cp, ProfileReport.columns rep !! i = Some cp /\
         ColumnProfile.outliers_count cp = Some 0%nat /\
         ColumnProfile.skewness cp = None /\
         ColumnProfile.variability_cv cp = None /\
         (is_numeric_dtype s = false ->
          ColumnProfile.mean cp = None /\ ColumnProfile.min cp = None /\
          ColumnProfile.max cp = None)) /\
    (forall i col s, data df !! i = Some (col, s) -> is_number s = true ->
       exists cp count shape volatility,
         ProfileReport.columns rep !! i = Some cp /\
         ColumnProfile.outliers_count cp = Some count /\
         ColumnProfile.skewness cp = Some shape /\
         ColumnProfile.variability_cv cp = Some volatility /\
         (dropna (values s) = [] ->
          count = 0%nat /\ shape = "Unknown" /\
          volatility = (if is_empty s then "Unknown" else "Moderate Variability") /\
          ColumnProfile.mean cp = None /\ ColumnProfile.min cp = None /\
          ColumnProfile.max cp = None)).
Proof.
  intros [Hnd _].
  destruct (analyze_dataset_eq fsqrt fmt memory_usage_sum df filename Hnd)
    as (stats & _ & _ & Hcols & ->).
  eexists. split; [reflexivity|]. cbn [ProfileReport.filename ProfileReport.summary
    ProfileReport.ai_analysis ProfileReport.columns dataset_summary
    DatasetSummary.total_rows DatasetSummary.total_columns].
  do 4 (split; [reflexivity|]). split; [|split].
  - unfold columns. rewrite map_map. apply map_ext. intros [col s].
    apply column_profile_basics.
  - intros i col s Hi Hnum. eexists. split.
    + rewrite list_lookup_fmap, Hi. reflexivity.
    + cbn [fst snd]. pose proof (Hcols col s (list_elem_of_lookup_2 _ _ _ Hi)) as Hd.
      rewrite Hnum in Hd. rewrite Hd. apply column_profile_degraded.
  - intros i col s Hi Hnum.
    pose proof (Hcols col s (list_elem_of_lookup_2 _ _ _ Hi)) as Hd.
    rewrite Hnum in Hd. destruct Hd as (sd & Hsd & Hstats).
    eexists. do 3 eexists. split; [rewrite list_lookup_fmap, Hi; reflexivity|].
    cbn [fst snd]. rewrite Hsd. unfold column_profile.
    rewrite (is_number_numeric s Hnum).
    cbn [ColumnProfile.outliers_count ColumnProfile.skewness ColumnProfile.variability_cv
         ColumnProfile.mean ColumnProfile.min ColumnProfile.max].
    do 3 (split; [reflexivity|]). intros Hnone.
    unfold column_stats in Hstats.
    destruct (detect_outliers_no_values s Hnum Hnone) as (o & Ho & Hcount & _).
    destruct (analyze_variability_no_values fsqrt s Hnum Hnone) as (v & Hv & Hlabel).
    rewrite Ho, Hv in Hstats. cbn [mbind res_bind] in Hstats. injection Hstats as <-.
    cbn [ColumnStats.outliers ColumnStats.skewness ColumnStats.variability].
    split; [exact Hcount|]. split.
    { rewrite analyze_skewness_nan; [reflexivity|].
      rewrite skew_few_values; [reflexivity | rewrite Hnone; cbn; lia]. }
    split; [exact Hlabel|].
    rewrite (no_values_all_null s Hnum Hnone). cbn [negb]. auto.
Qed.

End WholeProfile.

Lemma all_missing_table_well_formed : well_formed all_missing_table.
Proof.
  split.
  - cbn. repeat (apply NoDup_cons_2; [rewrite ?elem_of_cons, elem_of_nil; intuition discriminate|]).
    constructor.
  - repeat constructor.
Defined.

Lemma profile_never_raises_witness :
  well_formed all_missing_table /\
  exists rep,
    analyze_dataset Qsqrt float_repr flat_memory_usage all_missing_table "gaps.csv" = Ok rep /\
    map ColumnProfile.name (ProfileReport.columns rep) = ["x"; "y"] /\
    map ColumnProfile.skewness (ProfileReport.columns rep) = [Some "Unknown"; None] /\
    map ColumnProfile.variability_cv (ProfileReport.columns rep)
    = [Some "Moderate Variability"; None].
Proof.
  split; [exact all_missing_table_well_formed|].
  destruct (profile_never_raises Qsqrt float_repr flat_memory_usage all_missing_table
              "gaps.csv" all_missing_table_well_formed) as (rep & Hrep & _).
  exists rep. split; [exact Hrep|]. vm_compute in Hrep. injection Hrep as <-.
  repeat split.
Defined.

(** The float64 column of [all_missing_table] holds no value, so no
    diagnostic can be computed for it; its profile nevertheless carries
    the labels "Unknown" and "Moderate Variability" instead of the
    default, unset, fields. *)
Lemma profile_never_raises_counterexample :
  well_formed all_missing_table /\
  data all_missing_table !! 0%nat = Some ("x", SFloat64 [NaN; NaN]) /\
  dropna (values (SFloat64 [NaN; NaN])) = [] /\
  exists rep cp,
    analyze_dataset Qsqrt float_repr flat_memory_usage all_missing_table "gaps.csv" = Ok rep /\
    ProfileReport.columns rep !! 0%nat = Some cp /\
    ColumnProfile.skewness cp = Some "Unknown" /\
    ColumnProfile.variability_cv cp = Some "Moderate Variability" /\
    ~ default_diagnostics cp.
Proof.
  split; [exact all_missing_table_well_formed|]. split; [reflexivity|]. split; [reflexivity|].
  eexists. eexists. split; [vm_compute; reflexivity|]. split; [reflexivity|].
  split; [reflexivity|]. split; [reflexivity|].
  intros (_ & H & _). discriminate H.
Defined.
